(** * The /analyze backend of Wi3hard PCS (src/app.py), embedded in Rocq

    The Flask handler [analyze] and its helpers are written as functions in
    a state-and-exception monad.  The state carries the filesystem (the
    temporary image files), the position in the random source, and a log of
    the provider functions that were called.  The two upstream services
    (google-genai SDK, OpenAI chat-completions over [requests]) are oracles
    gathered in a [world] record; the environment variables read at start
    are a [config] record.

    Python values that travel through the handler are JSON values.  A
    Python [str] is a Rocq string holding its UTF-8 bytes: equality,
    concatenation, emptiness and the search for an ASCII marker are then
    those of Python.  What Python does with the characters themselves
    ([str.upper], [str.strip], [repr] of a string, the escapes of
    [json.dumps]) depends on the Unicode database of the interpreter and is
    taken from it, as the [unicode] operations of the [world]. *)

From Stdlib Require Import ZArith String Ascii Strings.Byte List Bool Lia.
From stdpp Require Import base strings pretty gmap.

#[local] Set Warnings "-register-all,-abstract-large-number".


Local Open Scope string_scope.
Local Open Scope Z_scope.

(** ** Python values *)

(** A parsed JSON document, as [json.loads] builds it.  An object keeps its
    members in insertion order.  A float is carried by its [repr]: the code
    only tests floats for truth and prints them. *)
Inductive json : Type :=
| JNull
| JBool (b : bool)
| JNum (n : Z)
| JFloat (r : string)
| JStr (s : string)
| JArr (l : list json)
| JObj (m : list (string * json)).

Abbreviation bytes := (list byte).

(** An exception: its class and [str(e)]. *)
Record exn : Type := Exn { exn_class : string; exn_str : string }.

Inductive result (A : Type) : Type :=
| Ok (a : A)
| Raise (e : exn).
Arguments Ok {A} a.
Arguments Raise {A} e.

(** The operations of the interpreter on the characters of a [str]. *)
Record text_ops : Type := TextOps {
  str_upper : string -> string;   (* [s.upper()] *)
  str_strip : string -> string;   (* [s.strip()] *)
  str_repr : string -> string;    (* [repr(s)] *)
  dumps_str : string -> string    (* [json.dumps(s)] *)
}.

Module Py.

(** [bool(v)] *)
Definition truthy (v : json) : bool :=
  match v with
  | JNull => false
  | JBool b => b
  | JNum n => negb (n =? 0)
  | JFloat r => negb (String.eqb r "0.0" || String.eqb r "-0.0")
  | JStr s => negb (String.eqb s EmptyString)
  | JArr l => match l with [] => false | _ => true end
  | JObj m => match m with [] => false | _ => true end
  end.

(** [type(v).__name__] *)
Definition type_name (v : json) : string :=
  match v with
  | JNull => "NoneType"
  | JBool _ => "bool"
  | JNum _ => "int"
  | JFloat _ => "float"
  | JStr _ => "str"
  | JArr _ => "list"
  | JObj _ => "dict"
  end.

Definition AttributeError (v : json) (attr : string) : exn :=
  Exn "AttributeError"
      ("'" ++ type_name v ++ "' object has no attribute '" ++ attr ++ "'").

Definition code (c : ascii) : Z := Z.of_N (N_of_ascii c).
Definition chr (n : Z) : ascii := ascii_of_N (Z.to_N n).

Fixpoint string_map (f : ascii -> ascii) (s : string) : string :=
  match s with
  | EmptyString => EmptyString
  | String c s' => String (f c) (string_map f s')
  end.

Fixpoint string_forallb (f : ascii -> bool) (s : string) : bool :=
  match s with
  | EmptyString => true
  | String c s' => f c && string_forallb f s'
  end.

Fixpoint string_concat_map (f : ascii -> string) (s : string) : string :=
  match s with
  | EmptyString => EmptyString
  | String c s' => f c ++ string_concat_map f s'
  end.

(** [sep in s] on strings *)
Fixpoint str_contains (sep s : string) : bool :=
  String.prefix sep s ||
  match s with
  | EmptyString => false
  | String _ s' => str_contains sep s'
  end.

(** [s.split(sep)] for a non-empty [sep]: the pieces between the
    occurrences of [sep], found from the left.  [skip] counts the
    characters of a separator that was just matched and is being passed
    over. *)
Fixpoint split_from (sep s : string) (skip : nat) : list string :=
  match s with
  | EmptyString => [EmptyString]
  | String c s' =>
      match skip with
      | S k => split_from sep s' k
      | O =>
          if String.prefix sep s
          then EmptyString :: split_from sep s' (Nat.pred (String.length sep))
          else match split_from sep s' O with
               | p :: ps => String c p :: ps
               | [] => [String c EmptyString]
               end
      end
  end.
Definition str_split (s sep : string) : list string := split_from sep s O.

Definition join (sep : string) (l : list string) : string := String.concat sep l.

(** Two lower-case hexadecimal digits. *)
Definition hex_digit (n : Z) : ascii :=
  if n <? 10 then chr (48 + n) else chr (87 + n).
Definition hex2 (n : Z) : string :=
  String (hex_digit (n / 16)) (String (hex_digit (n mod 16)) EmptyString).

Definition backslash : ascii := chr 92.
Definition dquote : ascii := chr 34.

(** [repr(v)] *)
Fixpoint repr (T : text_ops) (v : json) : string :=
  match v with
  | JNull => "None"
  | JBool true => "True"
  | JBool false => "False"
  | JNum n => pretty n
  | JFloat r => r
  | JStr s => str_repr T s
  | JArr l => "[" ++ join ", " (List.map (repr T) l) ++ "]"
  | JObj m =>
      "{" ++ join ", "
               (List.map (fun kv => str_repr T (fst kv) ++ ": " ++ repr T (snd kv)) m)
          ++ "}"
  end.

(** [str(v)], which is what an f-string field [{v}] prints *)
Definition str (T : text_ops) (v : json) : string :=
  match v with
  | JStr s => s
  | _ => repr T v
  end.

(** [d.get(key, default)] on the members of a dict *)
Fixpoint dict_get (m : list (string * json)) (key : string) (default : json) : json :=
  match m with
  | [] => default
  | (k, v) :: m' => if String.eqb k key then v else dict_get m' key default
  end.

Fixpoint dict_find (m : list (string * json)) (key : string) : option json :=
  match m with
  | [] => None
  | (k, v) :: m' => if String.eqb k key then Some v else dict_find m' key
  end.

(** [json.dumps(v)] with its defaults: separators [", "] and [": "]. *)
Definition dumps_float (r : string) : string :=
  if String.eqb r "nan" then "NaN"
  else if String.eqb r "inf" then "Infinity"
  else if String.eqb r "-inf" then "-Infinity"
  else r.

Fixpoint json_dumps (T : text_ops) (v : json) : string :=
  match v with
  | JNull => "null"
  | JBool true => "true"
  | JBool false => "false"
  | JNum n => pretty n
  | JFloat r => dumps_float r
  | JStr s => dumps_str T s
  | JArr l => "[" ++ join ", " (List.map (json_dumps T) l) ++ "]"
  | JObj m =>
      "{" ++ join ", "
               (List.map (fun kv => dumps_str T (fst kv) ++ ": " ++ json_dumps T (snd kv)) m)
          ++ "}"
  end.

(** [container[key]] with a string key, as in [j["choices"]] *)
Definition getitem_str (T : text_ops) (v : json) (key : string) : result json :=
  match v with
  | JObj m =>
      match dict_find m key with
      | Some x => Ok x
      | None => Raise (Exn "KeyError" (str_repr T key))
      end
  | JArr _ => Raise (Exn "TypeError" "list indices must be integers or slices, not str")
  | JStr _ => Raise (Exn "TypeError" "string indices must be integers, not 'str'")
  | _ => Raise (Exn "TypeError" ("'" ++ type_name v ++ "' object is not subscriptable"))
  end.

(** The bytes at the head of [s] that continue a UTF-8 character. *)
Fixpoint continuation (s : string) : string :=
  match s with
  | String c s' =>
      if (128 <=? code c) && (code c <? 192) then String c (continuation s')
      else EmptyString
  | EmptyString => EmptyString
  end.

(** [container[0]].  The keys of a parsed JSON object are strings, so a
    dict has no key [0]; of a string it is the first character. *)
Definition getitem_0 (v : json) : result json :=
  match v with
  | JArr (x :: _) => Ok x
  | JArr [] => Raise (Exn "IndexError" "list index out of range")
  | JStr (String c s') => Ok (JStr (String c (continuation s')))
  | JStr EmptyString => Raise (Exn "IndexError" "string index out of range")
  | JObj _ => Raise (Exn "KeyError" "0")
  | _ => Raise (Exn "TypeError" ("'" ++ type_name v ++ "' object is not subscriptable"))
  end.

End Py.

(** ** base64.b64decode

    [base64.b64decode(s)] with a [str] argument encodes it to ASCII and
    hands it to [binascii.a2b_base64] in its lenient mode: characters
    outside the alphabet are passed over, a complete pad sequence ends the
    decoding, and leftover sextets are an error. *)
Module Base64.

Definition table_a2b (c : ascii) : option Z :=
  let n := Py.code c in
  if (65 <=? n) && (n <=? 90) then Some (n - 65)
  else if (97 <=? n) && (n <=? 122) then Some (n - 71)
  else if (48 <=? n) && (n <=? 57) then Some (n + 4)
  else if n =? 43 then Some 62
  else if n =? 47 then Some 63
  else None.

Definition to_byte (n : Z) : byte := byte_of_ascii (Py.chr (n mod 256)).

Definition Error (msg : string) : exn := Exn "binascii.Error" msg.

(** The loop of [a2b_base64]: [quad_pos] is the position inside the
    current group of four sextets, [leftchar] the bits not yet written,
    [pads] the pad characters seen since the last sextet, [out] the bytes
    written so far. *)
Fixpoint a2b_loop (data : string) (quad_pos leftchar pads : Z) (out : bytes)
  : result bytes :=
  match data with
  | EmptyString =>
      if quad_pos =? 0 then Ok out
      else if quad_pos =? 1 then
        Raise (Error ("Invalid base64-encoded string: number of data characters ("
                      ++ pretty (Z.of_nat (List.length out) / 3 * 4 + 1)
                      ++ ") cannot be 1 more than a multiple of 4"))
      else Raise (Error "Incorrect padding")
  | String c rest =>
      if Ascii.eqb c "="%char then
        if 2 <=? quad_pos then
          if 4 <=? quad_pos + (pads + 1) then Ok out
          else a2b_loop rest quad_pos leftchar (pads + 1) out
        else a2b_loop rest quad_pos leftchar pads out
      else
        match table_a2b c with
        | None => a2b_loop rest quad_pos leftchar pads out
        | Some this_ch =>
            if quad_pos =? 0 then a2b_loop rest 1 this_ch 0 out
            else if quad_pos =? 1 then
              a2b_loop rest 2 (Z.land this_ch 15) 0
                (out ++ [to_byte (Z.lor (Z.shiftl leftchar 2) (Z.shiftr this_ch 4))])
            else if quad_pos =? 2 then
              a2b_loop rest 3 (Z.land this_ch 3) 0
                (out ++ [to_byte (Z.lor (Z.shiftl leftchar 4) (Z.shiftr this_ch 2))])
            else
              a2b_loop rest 0 0 0
                (out ++ [to_byte (Z.lor (Z.shiftl leftchar 6) this_ch)])
        end
  end.

Definition is_ascii (s : string) : bool :=
  Py.string_forallb (fun c => Py.code c <? 128) s.

Definition b64decode_str (s : string) : result bytes :=
  if is_ascii s then a2b_loop s 0 0 0 []
  else Raise (Exn "ValueError" "string argument should contain only ASCII characters").

(** [base64.b64decode(v)] for a value that came out of the JSON body *)
Definition b64decode (v : json) : result bytes :=
  match v with
  | JStr s => b64decode_str s
  | _ =>
      Raise (Exn "TypeError"
               ("argument should be a bytes-like object or ASCII string, not '"
                ++ Py.type_name v ++ "'"))
  end.

End Base64.

(** ** Process state, configuration and the outside world *)

(** A call of one of the two provider functions, with its arguments.  The
    log is bookkeeping of the model: it records what the handler passes to
    [call_gemini_api] and [call_openai_chat]. *)
Inductive call : Type :=
| CallGemini (payload_text : json) (image_bytes : option bytes) (mode : json)
| CallOpenAI (system_prompt : string) (user_text : json).

Record state : Type := State {
  files : gmap string bytes;   (* the files on disk, by path *)
  entropy : nat;               (* position in the random source *)
  calls : list call            (* provider functions called so far *)
}.

(** The module-level constants read from the environment ([os.getenv]
    gives [None] for an unset variable). *)
Record config : Type := Config {
  OPENAI_API_KEY : option string;
  GEMINI_API_KEY : option string;
  BACKEND_SECRET : string;
  DEFAULT_MODEL : string;
  SYSTEM_PROMPT : string
}.

(** What [client.models.generate_content] hands back: reading [.text] and
    calling [str] on it may each raise. *)
Record gemini_response : Type := GeminiResponse {
  response_text : result json;
  response_str : result string
}.

(** An item of the [contents] list sent to Gemini. *)
Inductive content : Type :=
| CFile (uploaded_file : string)
| CText (text : string).

Record gen_config : Type := GenerateContentConfig { system_instruction : string }.

(** The [requests.Response] of the chat-completions call. *)
Record http_response : Type := HttpResponse {
  status_code : Z;
  reason : string;
  resp_json : result json     (* [resp.json()] *)
}.

Record world : Type := World {
  tempdir : string;                       (* [tempfile.gettempdir()] *)
  rand_name : nat -> string;              (* random part of a temp file name *)
  rand_uuid : nat -> string;              (* [str(uuid.uuid4())] *)
  genai_installed : bool;                 (* does [from google import genai] work *)
  genai_Client : string -> result unit;   (* [genai.Client(api_key=...)] *)
  files_upload : string -> option bytes -> result string;
  make_config : string -> result gen_config;
  generate_content : string -> list content -> option gen_config -> result gemini_response;
  requests_post : string -> list (string * string) -> json -> Z -> result http_response;
  unicode : text_ops                      (* the interpreter's operations on [str] *)
}.

(** A Python object held in a dict of the handler: a JSON value or the
    Gemini response object kept under ["raw"]. *)
Inductive pyobj : Type :=
| PJson (v : json)
| PResponse (r : gemini_response).

(** The body and status of a Flask response made with [jsonify]. *)
Record response : Type := Response { resp_body : json; resp_status : Z }.

Record request : Type := Request {
  x_backend_secret : option string;   (* [request.headers.get("x-backend-secret")] *)
  json_body : option json             (* the body parsed as JSON, if it parses *)
}.

(** ** The monad: state passing with exceptions *)

Definition M (A : Type) : Type := state -> result A * state.

Definition ret {A} (a : A) : M A := fun s => (Ok a, s).
Definition raise {A} (e : exn) : M A := fun s => (Raise e, s).
Definition bind {A B} (m : M A) (k : A -> M B) : M B :=
  fun s => match m s with
           | (Ok a, s') => k a s'
           | (Raise e, s') => (Raise e, s')
           end.
Definition lift {A} (r : result A) : M A := fun s => (r, s).

Notation "'do' x <- m ;; k" := (bind m (fun x => k))
  (at level 10, x name, m at level 99, k at level 200).
Notation "'run' m ;; k" := (bind m (fun _ => k))
  (at level 10, m at level 99, k at level 200).

(** [try: m  except Exception as e: h e] *)
Definition try_except {A} (m : M A) (h : exn -> M A) : M A :=
  fun s => match m s with
           | (Ok a, s') => (Ok a, s')
           | (Raise e, s') => h e s'
           end.

(** [try: m  finally: f].  The [finally] block runs however [m] ends; an
    exception of [f] replaces the outcome of [m]. *)
Definition try_finally {A} (m : M A) (f : M unit) : M A :=
  fun s => match m s with
           | (r, s') =>
               match f s' with
               | (Ok _, s'') => (r, s'')
               | (Raise e, s'') => (Raise e, s'')
               end
           end.

Definition log (c : call) : M unit :=
  fun s => (Ok tt, State (files s) (entropy s) (calls s ++ [c])%list).

(** [x or default] and truth of an optional string *)
Definition str_truthy (s : string) : bool := negb (String.eqb s EmptyString).
Definition opt_truthy (o : option string) : bool :=
  match o with Some s => str_truthy s | None => false end.

Definition newline : string := String (Py.chr 10) EmptyString.

(** [tempfile] gives up after this many candidate names. *)
Definition TMP_MAX : nat := 10000.

Section Backend.

Variable w : world.
Variable cfg : config.

(** *** Files *)

(** [tempfile.NamedTemporaryFile(delete=False, suffix=...)]: candidate
    names are drawn from the random source until one is free; the file is
    then created empty and its name returned ([tmp.name]). *)
Fixpoint mkstemp_loop (suffix : string) (attempts : nat) (s : state)
  : result string * state :=
  match attempts with
  | O => (Raise (Exn "FileExistsError" "[Errno 17] No usable temporary file name found"), s)
  | S k =>
      let name := tempdir w ++ "/tmp" ++ rand_name w (entropy s) ++ suffix in
      match files s !! name with
      | None => (Ok name, State (<[name := []]> (files s)) (S (entropy s)) (calls s))
      | Some _ => mkstemp_loop suffix k (State (files s) (S (entropy s)) (calls s))
      end
  end.

Definition NamedTemporaryFile (suffix : string) : M string :=
  mkstemp_loop suffix TMP_MAX.

(** [tmp.write(data); tmp.flush(); tmp.close()] on a file just created *)
Definition tmp_write (name : string) (data : bytes) : M unit :=
  fun s => (Ok tt, State (<[name := data]> (files s)) (entropy s) (calls s)).

(** [with open(path, "rb") as f: f.read()] *)
Definition read_file (path : string) : M bytes :=
  fun s => match files s !! path with
           | Some data => (Ok data, s)
           | None => (Raise (Exn "FileNotFoundError"
                               ("[Errno 2] No such file or directory: " ++ str_repr (unicode w) path)), s)
           end.

(** [os.remove(path)] *)
Definition os_remove (path : string) : M unit :=
  fun s => match files s !! path with
           | Some _ => (Ok tt, State (delete path (files s)) (entropy s) (calls s))
           | None => (Raise (Exn "FileNotFoundError"
                               ("[Errno 2] No such file or directory: " ++ str_repr (unicode w) path)), s)
           end.

(** [str(uuid.uuid4())] *)
Definition uuid4 : M string :=
  fun s => (Ok (rand_uuid w (entropy s)), State (files s) (S (entropy s)) (calls s)).

(** *** Utility helpers (app.py, lines 26-35) *)

(** [header_sep in image_b64] for whatever value the body carried *)
Definition contains_header_sep (header_sep : string) (image_b64 : json) : result bool :=
  match image_b64 with
  | JStr s => Ok (Py.str_contains header_sep s)
  | JArr l =>
      Ok (existsb (fun x => match x with JStr t => String.eqb t header_sep | _ => false end) l)
  | JObj m => Ok (existsb (fun kv => String.eqb (fst kv) header_sep) m)
  | _ => Raise (Exn "TypeError"
                  ("argument of type '" ++ Py.type_name image_b64 ++ "' is not iterable"))
  end.

(** [image_b64.split(header_sep)[1]] *)
Definition split_second (header_sep : string) (image_b64 : json) : result json :=
  match image_b64 with
  | JStr s =>
      match Py.str_split s header_sep with
      | _ :: x :: _ => Ok (JStr x)
      | _ => Raise (Exn "IndexError" "list index out of range")
      end
  | _ => Raise (Py.AttributeError image_b64 "split")
  end.

Definition save_base64_image_to_tempfile (image_b64 : json) : M string :=
  let header_sep := "base64," in
  do found <- lift (contains_header_sep header_sep image_b64) ;;
  do image_b64 <- (if found then lift (split_second header_sep image_b64)
                   else ret image_b64) ;;
  do binary <- lift (Base64.b64decode image_b64) ;;
  do tmp <- NamedTemporaryFile ".png" ;;
  run tmp_write tmp binary ;;
  ret tmp.

(** *** Gemini integration (lines 38-77) *)

Definition RuntimeError (msg : string) : exn := Exn "RuntimeError" msg.

(** [payload_text and payload_text.strip()], then the append *)
Definition append_text (payload_text : json) (contents : list content)
  : result (list content) :=
  if Py.truthy payload_text then
    match payload_text with
    | JStr s =>
        if str_truthy (str_strip (unicode w) s) then Ok (contents ++ [CText s])%list
        else Ok contents
    | _ => Raise (Py.AttributeError payload_text "strip")
    end
  else Ok contents.

(** [client.files.upload(file=path)]: the SDK reads the file at [path]. *)
Definition client_files_upload (path : string) : M string :=
  fun s => (files_upload w path (files s !! path), s).

Definition call_gemini_api (payload_text : json) (image_bytes : option bytes) (mode : json)
  : M (list (string * pyobj)) :=
  run log (CallGemini payload_text image_bytes mode) ;;
  if negb (opt_truthy (GEMINI_API_KEY cfg))
  then raise (RuntimeError "GEMINI_API_KEY not set on server.")
  else if negb (genai_installed w)
  then raise (RuntimeError "google-genai SDK not installed. pip install google-genai")
  else
    do client <- lift (genai_Client w (default EmptyString (GEMINI_API_KEY cfg))) ;;
    let contents : list content := [] in
    do contents <-
      (match image_bytes with
       | Some (b :: bs) =>
           do tmp <- NamedTemporaryFile ".png" ;;
           run tmp_write tmp (b :: bs) ;;
           (* try: ... finally: pass *)
           do uploaded_file <- try_finally (client_files_upload tmp) (ret tt) ;;
           ret (contents ++ [CFile uploaded_file])%list
       | _ => ret contents
       end) ;;
    do contents <- lift (append_text payload_text contents) ;;
    do config <-
      try_except (do c <- lift (make_config w (SYSTEM_PROMPT cfg)) ;; ret (Some c))
                 (fun _ => ret None) ;;
    let model_name :=
      if str_truthy (DEFAULT_MODEL cfg) then DEFAULT_MODEL cfg else "gemini-2.5-pro" in
    do response <-
      (match config with
       | Some c => lift (generate_content w model_name contents (Some c))
       | None => lift (generate_content w model_name contents None)
       end) ;;
    do text <-
      try_except (lift (response_text response))
        (fun _ =>
           try_except (do t <- lift (response_str response) ;; ret (JStr t))
             (fun _ => ret (JStr "No textual response from Gemini."))) ;;
    ret [("reply_text", PJson text); ("raw", PResponse response);
         ("reply_type", PJson (JStr "analysis"))].

(** *** OpenAI fallback (lines 80-105) *)

(** [resp.raise_for_status()]: [requests] raises for the 4xx and 5xx
    status codes only. *)
Definition raise_for_status (url : string) (resp : http_response) : result unit :=
  let http_error_msg :=
    if (400 <=? status_code resp) && (status_code resp <? 500)
    then pretty (status_code resp) ++ " Client Error: " ++ reason resp ++ " for url: " ++ url
    else if (500 <=? status_code resp) && (status_code resp <? 600)
    then pretty (status_code resp) ++ " Server Error: " ++ reason resp ++ " for url: " ++ url
    else EmptyString in
  if str_truthy http_error_msg then Raise (Exn "HTTPError" http_error_msg) else Ok tt.

(** [j["choices"][0]["message"]["content"]] *)
Definition extract_content (j : json) : result json :=
  match Py.getitem_str (unicode w) j "choices" with
  | Raise e => Raise e
  | Ok choices =>
      match Py.getitem_0 choices with
      | Raise e => Raise e
      | Ok choice =>
          match Py.getitem_str (unicode w) choice "message" with
          | Raise e => Raise e
          | Ok message => Py.getitem_str (unicode w) message "content"
          end
      end
  end.

Definition call_openai_chat_with
    (system_prompt : string) (user_text : json)
    (model : string) (max_tokens : Z) (temperature : json)
  : M (list (string * pyobj)) :=
  run log (CallOpenAI system_prompt user_text) ;;
  if negb (opt_truthy (OPENAI_API_KEY cfg))
  then raise (RuntimeError "OPENAI_API_KEY not set on server.")
  else
    let url := "https://api.openai.com/v1/chat/completions" in
    let headers :=
      [("Authorization", "Bearer " ++ default "None" (OPENAI_API_KEY cfg));
       ("Content-Type", "application/json")] in
    let body :=
      JObj [("model", JStr model);
            ("messages",
             JArr [JObj [("role", JStr "system"); ("content", JStr system_prompt)];
                   JObj [("role", JStr "user"); ("content", user_text)]]);
            ("temperature", temperature);
            ("max_tokens", JNum max_tokens)] in
    do resp <- lift (requests_post w url headers body 60) ;;
    run lift (raise_for_status url resp) ;;
    do j <- lift (resp_json resp) ;;
    do text <-
      try_except (lift (extract_content j))
                 (fun _ => ret (JStr (Py.json_dumps (unicode w) j))) ;;
    ret [("reply_text", PJson text); ("raw", PJson j);
         ("reply_type", PJson (JStr "analysis"))].

(** The call with the defaults of the signature:
    [model="gpt-4o", max_tokens=800, temperature=0.2]. *)
Definition call_openai_chat (system_prompt : string) (user_text : json)
  : M (list (string * pyobj)) :=
  call_openai_chat_with system_prompt user_text "gpt-4o" 800 (JFloat "0.2").

(** *** Main analyze endpoint (lines 108-155) *)

(** [jsonify({...}), status] *)
Definition jsonify (d : list (string * json)) (status : Z) : response :=
  Response (JObj d) status.

(** [request.get_json(force=True)]: the parsed body, whatever the
    content type; Flask raises [BadRequest] when the body is missing or
    does not parse (outside debug mode, with the default description of
    the class). *)
Definition get_json (req : request) : result json :=
  match json_body req with
  | Some data => Ok data
  | None =>
      Raise (Exn "BadRequest"
               ("400 Bad Request: The browser (or proxy) sent a request "
                ++ "that this server could not understand."))
  end.

(** Looking up the method [data.get]: only a dict has one. *)
Definition getattr_get (data : json) : result (list (string * json)) :=
  match data with
  | JObj m => Ok m
  | _ => Raise (Py.AttributeError data "get")
  end.

(** [v != lit] for a string literal *)
Definition ne_str (v : json) (lit : string) : bool :=
  match v with
  | JStr s => negb (String.eqb s lit)
  | _ => true
  end.

(** [mode.upper()] *)
Definition method_upper (mode : json) : result string :=
  match mode with
  | JStr s => Ok (str_upper (unicode w) s)
  | _ => Raise (Py.AttributeError mode "upper")
  end.

(** Lines 111-112: does the gate turn the request away. *)
Definition gate_rejects (req : request) : bool :=
  let client_secret := x_backend_secret req in
  negb (String.eqb (BACKEND_SECRET cfg) "devsecret")
  && negb (match client_secret with
           | Some c => String.eqb c (BACKEND_SECRET cfg)
           | None => false
           end).

(** Lines 120-123. *)
Definition build_user_text (mode text : json) : result json :=
  if ne_str mode "auto" then
    match method_upper mode with
    | Ok up => Ok (JStr ("[MODE: " ++ up ++ "]" ++ newline ++ newline ++ Py.str (unicode w) text))
    | Raise e => Raise e
    end
  else Ok text.

(** Lines 124-132: either the 400 answer, or [temp_image_path] and
    [image_bytes]. *)
Definition load_image (image_b64 : json)
  : M (response + (option string * option bytes)) :=
  let temp_image_path : option string := None in
  let image_bytes : option bytes := None in
  if Py.truthy image_b64 then
    try_except
      (do temp_image_path <- save_base64_image_to_tempfile image_b64 ;;
       do image_bytes <- read_file temp_image_path ;;
       ret (inr (Some temp_image_path, Some image_bytes)))
      (fun e =>
         ret (inl (jsonify [("status", JStr "error"); ("message", JStr "bad image base64");
                            ("error", JStr (exn_str e))] 400)))
  else ret (inr (temp_image_path, image_bytes)).

(** Lines 144-149, the [finally] block. *)
Definition cleanup (temp_image_path : option string) : M unit :=
  try_except
    (match temp_image_path with
     | Some p => if str_truthy p then os_remove p else ret tt
     | None => ret tt
     end)
    (fun _ => ret tt).

(** Lines 133-149: either a response returned from inside the [try], or
    [ai_resp] and [used]. *)
Definition provider_block
    (user_text : json) (image_bytes : option bytes) (mode : json)
    (temp_image_path : option string)
  : M (response + (list (string * pyobj) * string)) :=
  try_finally
    (try_except
       (if opt_truthy (GEMINI_API_KEY cfg) then
          do ai_resp <- call_gemini_api user_text image_bytes mode ;;
          ret (inr (ai_resp, "gemini"))
        else if opt_truthy (OPENAI_API_KEY cfg) then
          do ai_resp <- call_openai_chat (SYSTEM_PROMPT cfg) user_text ;;
          ret (inr (ai_resp, "openai"))
        else
          ret (inl (jsonify
                 [("status", JStr "error");
                  ("message",
                   JStr "No AI provider configured. Set GEMINI_API_KEY or OPENAI_API_KEY on the server.")]
                 500)))
       (fun e =>
          ret (inl (jsonify [("status", JStr "error"); ("message", JStr "AI provider error");
                             ("error", JStr (exn_str e))] 500))))
    (cleanup temp_image_path).

(** [ai_resp.get(key, default)] *)
Fixpoint resp_get (d : list (string * pyobj)) (key : string) (default : pyobj) : pyobj :=
  match d with
  | [] => default
  | (k, v) :: d' => if String.eqb k key then v else resp_get d' key default
  end.

(** A value placed in a [jsonify] argument must be JSON serializable. *)
Definition to_json (o : pyobj) : result json :=
  match o with
  | PJson v => Ok v
  | PResponse _ =>
      Raise (Exn "TypeError" "Object of type GenerateContentResponse is not JSON serializable")
  end.

(** Lines 150-155. *)
Definition reply (ai_resp : list (string * pyobj)) (used : string) : result response :=
  match to_json (resp_get ai_resp "reply_text" (PJson JNull)) with
  | Raise e => Raise e
  | Ok reply_text =>
      match to_json (resp_get ai_resp "reply_type" (PJson (JStr "analysis"))) with
      | Raise e => Raise e
      | Ok reply_type =>
          Ok (jsonify [("status", JStr "ok");
                       ("reply_text", reply_text);
                       ("reply_type", reply_type);
                       ("meta", JObj [("used_provider", JStr used)])] 200)
      end
  end.

(** Lines 113-155: the handler once the gate has let the request in. *)
Definition analyze_body (req : request) : M response :=
  do data <- lift (get_json req) ;;
  if negb (Py.truthy data) then
    ret (jsonify [("status", JStr "error"); ("message", JStr "invalid json payload")] 400)
  else
    do get <- lift (getattr_get data) ;;
    do fresh_id <- uuid4 ;;
    let user_id := Py.dict_get get "user_id" (JStr fresh_id) in
    let mode := Py.dict_get get "mode" (JStr "auto") in
    let text := Py.dict_get get "message_text" (JStr EmptyString) in
    let image_b64 := Py.dict_get get "image_base64" JNull in
    do user_text <- lift (build_user_text mode text) ;;
    do loaded <- load_image image_b64 ;;
    match loaded with
    | inl bad_image => ret bad_image
    | inr (temp_image_path, image_bytes) =>
        do outcome <- provider_block user_text image_bytes mode temp_image_path ;;
        match outcome with
        | inl resp => ret resp
        | inr (ai_resp, used) => lift (reply ai_resp used)
        end
    end.

Definition analyze (req : request) : M response :=
  if gate_rejects req then
    ret (jsonify [("status", JStr "error"); ("message", JStr "unauthorized")] 401)
  else analyze_body req.

End Backend.


(** ** Configuration via environment variables (lines 13-23) *)

(** [os.getenv(key)] and [os.getenv(key, default)] on the process
    environment *)
Definition getenv (environ : gmap string string) (key : string) : option string :=
  environ !! key.

Definition getenv_or (environ : gmap string string) (key default : string) : string :=
  match environ !! key with
  | Some value => value
  | None => default
  end.

(** The persona used when [SYSTEM_PROMPT] is not set. *)
Definition default_system_prompt : string :=
  let q := String Py.dquote EmptyString in
  "You are Wi3hard PCS with AI, an expert tutor in Peace & Conflict Studies for Nigerian university "
  ++ "students and lecturers. Always answer in clear, academic, exam-ready language. If a user asks for a "
  ++ q ++ "summary" ++ q ++ ", produce concise bullet points. If asked for "
  ++ q ++ "analysis" ++ q ++ ", include causes, actors, timeline, "
  ++ "and consequences. For " ++ q ++ "full" ++ q
  ++ " responses, provide detailed explanations, case comparisons, and references when possible. "
  ++ "When an image is provided, extract the text/diagram info and respond to it directly. Keep tone professional.".

(** The module-level constants, from the environment at start. *)
Definition load_config (environ : gmap string string) : config :=
  {| OPENAI_API_KEY := getenv environ "OPENAI_API_KEY";
     GEMINI_API_KEY := getenv environ "GEMINI_API_KEY";
     BACKEND_SECRET := getenv_or environ "BACKEND_SECRET" "devsecret";
     DEFAULT_MODEL := getenv_or environ "DEFAULT_MODEL" "gemini-2.5-pro";
     SYSTEM_PROMPT := getenv_or environ "SYSTEM_PROMPT" default_system_prompt |}.
Arguments TMP_MAX : simpl never.
Arguments NamedTemporaryFile : simpl never.

(** ** Vocabulary of the statements *)

(** The member [key] of a JSON object, if the value is one and has it. *)
Definition member (key : string) (v : json) : option json :=
  match v with
  | JObj m => Py.dict_find m key
  | _ => None
  end.

(** [meta.used_provider] of a reply envelope *)
Definition used_provider (r : response) : option json :=
  match member "meta" (resp_body r) with
  | Some meta => member "used_provider" meta
  | None => None
  end.

(** The answers the handler writes out, by name. *)
Definition unauthorized : response :=
  jsonify [("status", JStr "error"); ("message", JStr "unauthorized")] 401.

Definition invalid_json_payload : response :=
  jsonify [("status", JStr "error"); ("message", JStr "invalid json payload")] 400.

Definition bad_image (e : exn) : response :=
  jsonify [("status", JStr "error"); ("message", JStr "bad image base64");
           ("error", JStr (exn_str e))] 400.

Definition no_provider : response :=
  jsonify [("status", JStr "error");
           ("message",
            JStr "No AI provider configured. Set GEMINI_API_KEY or OPENAI_API_KEY on the server.")]
          500.

Definition provider_error (e : exn) : response :=
  jsonify [("status", JStr "error"); ("message", JStr "AI provider error");
           ("error", JStr (exn_str e))] 500.

(** The dict built by both provider functions. *)
Definition provider_reply (text : json) (raw : pyobj) : list (string * pyobj) :=
  [("reply_text", PJson text); ("raw", raw); ("reply_type", PJson (JStr "analysis"))].

Definition is_provider_reply (d : list (string * pyobj)) : Prop :=
  exists text raw, d = provider_reply text raw.

Definition ok_reply (text : json) (used : string) : response :=
  jsonify [("status", JStr "ok"); ("reply_text", text); ("reply_type", JStr "analysis");
           ("meta", JObj [("used_provider", JStr used)])] 200.

(** [keeps R m]: running [m] relates the state before to the state after,
    however [m] ends. *)
Definition keeps {A} (R : state -> state -> Prop) (m : M A) : Prop :=
  forall s, R s (snd (m s)).

(** [returns Q m]: a value returned by [m] satisfies [Q]. *)
Definition returns {A} (Q : A -> Prop) (m : M A) : Prop :=
  forall s a s', m s = (Ok a, s') -> Q a.

(** The three relations the proofs follow through the handler. *)
Definition same_calls (s s' : state) : Prop := calls s' = calls s.
Definition same_files (s s' : state) : Prop := files s' = files s.
Definition files_kept (s s' : state) : Prop :=
  forall q b, files s !! q = Some b -> files s' !! q = Some b.

(** The provider calls of the [try] block, by configuration. *)
Definition expected_calls (cfg : config)
    (user_text : json) (image_bytes : option bytes) (mode : json) : list call :=
  if opt_truthy (GEMINI_API_KEY cfg) then [CallGemini user_text image_bytes mode]
  else if opt_truthy (OPENAI_API_KEY cfg) then [CallOpenAI (SYSTEM_PROMPT cfg) user_text]
  else [].

(** The ways lines 133-149 can end. *)
Inductive block_outcome (cfg : config)
  : response + (list (string * pyobj) * string) -> Prop :=
| BO_gemini text raw :
    opt_truthy (GEMINI_API_KEY cfg) = true ->
    block_outcome cfg (inr (provider_reply text raw, "gemini"))
| BO_openai text raw :
    opt_truthy (GEMINI_API_KEY cfg) = false ->
    opt_truthy (OPENAI_API_KEY cfg) = true ->
    block_outcome cfg (inr (provider_reply text raw, "openai"))
| BO_error e :
    opt_truthy (GEMINI_API_KEY cfg) || opt_truthy (OPENAI_API_KEY cfg) = true ->
    block_outcome cfg (inl (provider_error e))
| BO_none :
    opt_truthy (GEMINI_API_KEY cfg) = false ->
    opt_truthy (OPENAI_API_KEY cfg) = false ->
    block_outcome cfg (inl no_provider).

(** The ways the handler can end. *)
Inductive analyze_outcome (cfg : config) (req : request) : result response -> Prop :=
| AO_unauthorized :
    gate_rejects cfg req = true -> analyze_outcome cfg req (Ok unauthorized)
| AO_raise e :
    gate_rejects cfg req = false -> analyze_outcome cfg req (Raise e)
| AO_invalid_json :
    gate_rejects cfg req = false -> analyze_outcome cfg req (Ok invalid_json_payload)
| AO_bad_image e :
    gate_rejects cfg req = false -> analyze_outcome cfg req (Ok (bad_image e))
| AO_provider_error e :
    gate_rejects cfg req = false ->
    opt_truthy (GEMINI_API_KEY cfg) || opt_truthy (OPENAI_API_KEY cfg) = true ->
    analyze_outcome cfg req (Ok (provider_error e))
| AO_no_provider :
    gate_rejects cfg req = false ->
    opt_truthy (GEMINI_API_KEY cfg) = false ->
    opt_truthy (OPENAI_API_KEY cfg) = false ->
    analyze_outcome cfg req (Ok no_provider)
| AO_gemini text :
    gate_rejects cfg req = false ->
    opt_truthy (GEMINI_API_KEY cfg) = true ->
    analyze_outcome cfg req (Ok (ok_reply text "gemini"))
| AO_openai text :
    gate_rejects cfg req = false ->
    opt_truthy (GEMINI_API_KEY cfg) = false ->
    opt_truthy (OPENAI_API_KEY cfg) = true ->
    analyze_outcome cfg req (Ok (ok_reply text "openai")).

(** The text argument of a logged provider call. *)
Definition call_text (c : call) : json :=
  match c with
  | CallGemini payload_text _ _ => payload_text
  | CallOpenAI _ user_text => user_text
  end.

(** The state in which the handler goes on after [uuid.uuid4()]. *)
Definition after_uuid (s : state) : state :=
  State (files s) (S (entropy s)) (calls s).

(** The fields the handler reads from the body. *)
Definition mode_of (m : list (string * json)) : json := Py.dict_get m "mode" (JStr "auto").
Definition text_of (m : list (string * json)) : json :=
  Py.dict_get m "message_text" (JStr EmptyString).
Definition image_of (m : list (string * json)) : json := Py.dict_get m "image_base64" JNull.

(** The body with every [user_id] member taken out. *)
Definition without_user_id (m : list (string * json)) : list (string * json) :=
  List.filter (fun kv => negb (String.eqb (fst kv) "user_id")) m.

(** [j] has the shape [{"choices": [{"message": {"content": c}}, ...]}]. *)
Definition has_content (j c : json) : Prop :=
  exists m choice rest message,
    j = JObj m
    /\ Py.dict_find m "choices" = Some (JArr (JObj choice :: rest))
    /\ Py.dict_find choice "message" = Some (JObj message)
    /\ Py.dict_find message "content" = Some c.

(** ** Concrete worlds and configurations *)

(** The text operations of the example worlds.  All the text of the
    examples is ASCII, and on ASCII text these are [s.upper()],
    [s.strip()], [repr(s)] and [json.dumps(s)] of CPython. *)
Module AsciiText.

Import Py.

Definition upper_char (c : ascii) : ascii :=
  if (97 <=? code c) && (code c <=? 122) then chr (code c - 32) else c.
Definition upper (s : string) : string := string_map upper_char s.

Definition isspace (c : ascii) : bool :=
  ((9 <=? code c) && (code c <=? 13)) || ((28 <=? code c) && (code c <=? 32)).

Fixpoint lstrip (s : string) : string :=
  match s with
  | String c s' => if isspace c then lstrip s' else s
  | EmptyString => EmptyString
  end.
Definition strip (s : string) : string := String.rev (lstrip (String.rev (lstrip s))).

(** Single quotes unless the text has a single quote and no double quote;
    backslash escapes for the quote, the backslash and the control
    characters. *)
Definition repr_char (quote : ascii) (c : ascii) : string :=
  if Ascii.eqb c quote || Ascii.eqb c backslash
  then String backslash (String c EmptyString)
  else if code c =? 9 then "\t"
  else if code c =? 10 then "\n"
  else if code c =? 13 then "\r"
  else if (code c <? 32) || (code c =? 127) then "\x" ++ hex2 (code c)
  else String c EmptyString.

Definition repr (s : string) : string :=
  let quote : ascii :=
    if str_contains "'" s && negb (str_contains (String dquote EmptyString) s)
    then dquote else "'"%char in
  String quote (string_concat_map (repr_char quote) s) ++ String quote EmptyString.

Definition hex4 (n : Z) : string := hex2 (n / 256) ++ hex2 (n mod 256).

Definition dumps_char (c : ascii) : string :=
  if Ascii.eqb c dquote || Ascii.eqb c backslash
  then String backslash (String c EmptyString)
  else if code c =? 10 then "\n"
  else if code c =? 13 then "\r"
  else if code c =? 9 then "\t"
  else if code c =? 12 then "\f"
  else if code c =? 8 then "\b"
  else if (code c <? 32) || (code c =? 127) then "\u" ++ hex4 (code c)
  else String c EmptyString.

Definition dumps (s : string) : string :=
  String dquote (string_concat_map dumps_char s) ++ String dquote EmptyString.

Definition ops : text_ops :=
  {| str_upper := upper; str_strip := strip; str_repr := repr; dumps_str := dumps |}.

End AsciiText.


Module Scenario.

Definition completion (text : string) : json :=
  JObj [("choices", JArr [JObj [("message", JObj [("content", JStr text)])]])].

(** Both upstream services answer; OpenAI answers with HTTP [status]. *)
Definition world_with_status (status : Z) (reason : string) : world :=
  {| tempdir := "/tmp";
     rand_name := fun n => "r" ++ pretty n;
     rand_uuid := fun n => "u" ++ pretty n;
     genai_installed := true;
     genai_Client := fun _ => Ok tt;
     files_upload := fun path _ => Ok ("files/" ++ path);
     make_config := fun p => Ok (GenerateContentConfig p);
     generate_content := fun _ _ _ =>
       Ok (GeminiResponse (Ok (JStr "answer")) (Ok "response"));
     requests_post := fun _ _ _ _ =>
       Ok (HttpResponse status reason (Ok (completion "hi")));
     unicode := AsciiText.ops |}.

Definition w : world := world_with_status 200 "OK".

Definition s0 : state := State ∅ 0 [].

Definition configured (openai gemini : option string) (secret : string) : config :=
  Config openai gemini secret "gemini-2.5-pro" "persona".

Definition gemini_only : config := configured None (Some "g-key") "devsecret".
Definition openai_only : config := configured (Some "o-key") None "devsecret".
Definition no_keys : config := configured None None "devsecret".
Definition empty_secret : config := configured None None EmptyString.
Definition with_secret : config := configured None (Some "g-key") "s3cret".

Definition post (secret : option string) (body : list (string * json)) : request :=
  Request secret (Some (JObj body)).

(** The end-to-end example of the spec, and the call it leads to. *)
Definition summary_request : request :=
  post None [("message_text", JStr "Summarize the Niger Delta conflict");
             ("mode", JStr "summary")].

Definition summary_call : call :=
  CallGemini
    (JStr ("[MODE: SUMMARY]" ++ newline ++ newline ++ "Summarize the Niger Delta conflict"))
    None (JStr "summary").

End Scenario.

(** ** The spec's sentences that the code does not bear out, as written *)

(** Spec 4.1: "if the configured secret is a non-default, non-empty value
    and the header does not match it exactly, fail with ... 401 ...;
    otherwise proceed". *)
Definition spec_gate (w : world) (cfg : config) (req : request) (s : state) : Prop :=
  (BACKEND_SECRET cfg <> "devsecret" /\ BACKEND_SECRET cfg <> EmptyString
   /\ x_backend_secret req <> Some (BACKEND_SECRET cfg) ->
   fst (analyze w cfg req s) = Ok unauthorized)
  /\ (~ (BACKEND_SECRET cfg <> "devsecret" /\ BACKEND_SECRET cfg <> EmptyString
         /\ x_backend_secret req <> Some (BACKEND_SECRET cfg)) ->
      analyze w cfg req s = analyze_body w cfg req s).

(** Spec 4.3, OpenAI path: "A non-2xx HTTP status fails with a
    Provider-Error condition": when the upstream answer is [resp] and its
    status is outside 200..299, the handler does not answer 200. *)
Definition spec_non_2xx_fails (w : world) (cfg : config) (req : request) (s : state)
    (resp : http_response) : Prop :=
  opt_truthy (GEMINI_API_KEY cfg) = false ->
  opt_truthy (OPENAI_API_KEY cfg) = true ->
  (forall url headers body timeout, requests_post w url headers body timeout = Ok resp) ->
  ~ (200 <= status_code resp < 300) ->
  forall r, fst (analyze w cfg req s) = Ok r -> resp_status r <> 200.

(** The endpoint of the OpenAI call. *)
Definition openai_url : string := "https://api.openai.com/v1/chat/completions".

(** Saving the image of body [m] fails (the base64 text does not decode,
    or no temporary file can be made). *)
Definition image_fails (w : world) (m : list (string * json)) (s : state) (e : exn) : Prop :=
  Py.truthy (image_of m) = true
  /\ fst (save_base64_image_to_tempfile w (image_of m) (after_uuid s)) = Raise e.

(** Spec 4.2 and 6: the handler answers 400 exactly when the body is
    missing or not valid JSON, or carries invalid base64. *)
Definition spec_bad_request (w : world) (cfg : config) (req : request) (s : state) : Prop :=
  (exists r, fst (analyze w cfg req s) = Ok r /\ resp_status r = 400)
  <-> (json_body req = None
       \/ exists m e, json_body req = Some (JObj m) /\ image_fails w m s e).

(** Spec 3: [user_id] is inert.  Two bodies that differ only in the
    presence or value of [user_id] get the same answer. *)
Definition spec_user_id_inert (w : world) (cfg : config) (secret : option string)
    (m1 m2 : list (string * json)) (s : state) : Prop :=
  without_user_id m1 = without_user_id m2 ->
  fst (analyze w cfg (Request secret (Some (JObj m1))) s)
  = fst (analyze w cfg (Request secret (Some (JObj m2))) s).

(** Spec 4.5 and 8: no temporary file made while handling the request is
    on disk when the handler returns. *)
Definition spec_no_temp_file_left (w : world) (cfg : config) (req : request) (s : state)
  : Prop :=
  forall p, files s !! p = None -> files (snd (analyze w cfg req s)) !! p = None.

(** Spec 7: the handler lets no exception out. *)
Definition spec_no_exception (w : world) (cfg : config) (req : request) (s : state) : Prop :=
  (exists r, fst (analyze w cfg req s) = Ok r
             /\ member "status" (resp_body r) = Some (JStr "error")
             /\ (resp_status r = 400 \/ resp_status r = 401 \/ resp_status r = 500))
  \/ (exists r, fst (analyze w cfg req s) = Ok r /\ resp_status r = 200).

(** [s] without its first [n] characters. *)
Fixpoint string_drop (n : nat) (s : string) : string :=
  match n, s with
  | O, _ => s
  | S k, String _ s' => string_drop k s'
  | S _, EmptyString => EmptyString
  end.

(** The text after the first occurrence of [sep] in [s]: everything up to
    and including the marker is stripped. *)
Fixpoint str_after (sep s : string) : option string :=
  if String.prefix sep s then Some (string_drop (String.length sep) s)
  else match s with
       | EmptyString => None
       | String _ s' => str_after sep s'
       end.

(** Lines 27-30: the bytes the normalizer decodes from [image_b64]. *)
Definition image_binary (image_b64 : json) : result bytes :=
  match contains_header_sep "base64," image_b64 with
  | Raise e => Raise e
  | Ok true =>
      match split_second "base64," image_b64 with
      | Ok rest => Base64.b64decode rest
      | Raise e => Raise e
      end
  | Ok false => Base64.b64decode image_b64
  end.

(** Spec 8: "the decoded bytes must equal decoding only the substring
    after the literal base64, marker". *)
Definition spec_marker_stripped (image_b64 : string) : Prop :=
  forall rest, str_after "base64," image_b64 = Some rest ->
               image_binary (JStr image_b64) = Base64.b64decode_str rest.

(** ** Vocabulary of the further properties *)

(** Two states with the same disk and the same position in the random
    source: they differ at most in the log of provider calls. *)
Definition same_disk (s s' : state) : Prop :=
  files s = files s' /\ entropy s = entropy s'.

(** [log_blind m]: what [m] returns and what it leaves on disk do not
    depend on the log. *)
Definition log_blind {A} (m : M A) : Prop :=
  forall s s', same_disk s s' ->
               fst (m s) = fst (m s') /\ same_disk (snd (m s)) (snd (m s')).

(** The name under which the Gemini path asks for a model. *)
Definition gemini_model_name (cfg : config) : string :=
  if str_truthy (DEFAULT_MODEL cfg) then DEFAULT_MODEL cfg else "gemini-2.5-pro".

(** The text taken from a Gemini response: [.text], else [str(response)],
    else the placeholder. *)
Definition gemini_text (r : gemini_response) : json :=
  match response_text r with
  | Ok text => text
  | Raise _ =>
      match response_str r with
      | Ok text => JStr text
      | Raise _ => JStr "No textual response from Gemini."
      end
  end.

(** Lines 60-77 of [call_gemini_api], once [contents] is built: the
    configuration (or none), the generation call, the text. *)
Definition gemini_generate (w : world) (cfg : config) (contents : list content)
  : result (list (string * pyobj)) :=
  let config :=
    match make_config w (SYSTEM_PROMPT cfg) with
    | Ok c => Some c
    | Raise _ => None
    end in
  match generate_content w (gemini_model_name cfg) contents config with
  | Ok r => Ok (provider_reply (gemini_text r) (PResponse r))
  | Raise e => Raise e
  end.

(** The Gemini SDK is importable and a client can be made with the
    configured key. *)
Definition gemini_ready (w : world) (cfg : config) : Prop :=
  opt_truthy (GEMINI_API_KEY cfg) = true
  /\ genai_installed w = true
  /\ genai_Client w (default EmptyString (GEMINI_API_KEY cfg)) = Ok tt.

(** ** More worlds *)

Module Cases.

(** [Scenario.w] with another Gemini generation call. *)
Definition gemini_world
    (generate : string -> list content -> option gen_config -> result gemini_response)
    (config : string -> result gen_config) : world :=
  {| tempdir := tempdir Scenario.w;
     rand_name := rand_name Scenario.w;
     rand_uuid := rand_uuid Scenario.w;
     genai_installed := true;
     genai_Client := genai_Client Scenario.w;
     files_upload := files_upload Scenario.w;
     make_config := config;
     generate_content := generate;
     requests_post := requests_post Scenario.w;
     unicode := unicode Scenario.w |}.

(** [Scenario.w] with another outcome of the HTTP POST. *)
Definition openai_world (outcome : result http_response) : world :=
  {| tempdir := tempdir Scenario.w;
     rand_name := rand_name Scenario.w;
     rand_uuid := rand_uuid Scenario.w;
     genai_installed := true;
     genai_Client := genai_Client Scenario.w;
     files_upload := files_upload Scenario.w;
     make_config := make_config Scenario.w;
     generate_content := generate_content Scenario.w;
     requests_post := fun _ _ _ _ => outcome;
     unicode := unicode Scenario.w |}.

Definition overloaded : exn := Exn "ServerError" "503 UNAVAILABLE".
Definition not_json : exn := Exn "JSONDecodeError" "Expecting value: line 1 column 1 (char 0)".
Definition timed_out : exn := Exn "ReadTimeout" "Read timed out. (read timeout=60)".

(** A response object whose [.text] cannot be read. *)
Definition no_text : gemini_response :=
  GeminiResponse (Raise (Exn "ValueError" "no text part")) (Ok "candidates=[]").

(** A process environment. *)
Definition environ (vars : list (string * string)) : gmap string string :=
  list_to_map vars.

End Cases.

(** * Proofs *)

(** ** Basic facts about the file operations *)

Lemma str_truthy_app_tmp (a b : string) : str_truthy (a ++ "/tmp" ++ b) = true.
Proof. destruct a; reflexivity. Qed.

Section FileFacts.

Variable w : world.

Lemma mkstemp_loop_spec (suffix : string) (n : nat) (s : state) :
  match mkstemp_loop w suffix n s with
  | (Ok name, s') =>
      files s !! name = None /\ files s' = <[name := []]> (files s)
      /\ calls s' = calls s /\ str_truthy name = true
  | (Raise _, s') => files s' = files s /\ calls s' = calls s
  end.
Proof.
  revert s. induction n as [|n IH]; intros s; simpl.
  - split; reflexivity.
  - destruct (files s !! _) eqn:E.
    + specialize (IH (State (files s) (S (entropy s)) (calls s))).
      destruct (mkstemp_loop w suffix n _) as [[name|e] s']; simpl in IH; exact IH.
    + repeat split; auto using str_truthy_app_tmp.
Qed.

Lemma NamedTemporaryFile_spec (suffix : string) (s : state) :
  match NamedTemporaryFile w suffix s with
  | (Ok name, s') =>
      files s !! name = None /\ files s' = <[name := []]> (files s)
      /\ calls s' = calls s /\ str_truthy name = true
  | (Raise _, s') => files s' = files s /\ calls s' = calls s
  end.
Proof. apply mkstemp_loop_spec. Qed.

End FileFacts.

(** ** A small program logic for the monad *)

Section Logic.

Variable R : state -> state -> Prop.
Hypothesis R_refl : forall s, R s s.
Hypothesis R_trans : forall s1 s2 s3, R s1 s2 -> R s2 s3 -> R s1 s3.

Lemma keeps_ret {A} (a : A) : keeps R (ret a).
Proof. intros s. apply R_refl. Qed.

Lemma keeps_raise {A} (e : exn) : keeps R (@raise A e).
Proof. intros s. apply R_refl. Qed.

Lemma keeps_lift {A} (r : result A) : keeps R (lift r).
Proof. intros s. apply R_refl. Qed.

Lemma keeps_bind {A B} (m : M A) (k : A -> M B) :
  keeps R m -> (forall a, keeps R (k a)) -> keeps R (bind m k).
Proof.
  intros Hm Hk s. unfold bind. specialize (Hm s).
  destruct (m s) as [[a|e] s1]; simpl in *.
  - eapply R_trans; [exact Hm | apply Hk].
  - exact Hm.
Qed.

Lemma keeps_try_except {A} (m : M A) (h : exn -> M A) :
  keeps R m -> (forall e, keeps R (h e)) -> keeps R (try_except m h).
Proof.
  intros Hm Hh s. unfold try_except. specialize (Hm s).
  destruct (m s) as [[a|e] s1]; simpl in *.
  - exact Hm.
  - eapply R_trans; [exact Hm | apply Hh].
Qed.

Lemma keeps_try_finally {A} (m : M A) (f : M unit) :
  keeps R m -> keeps R f -> keeps R (try_finally m f).
Proof.
  intros Hm Hf s. unfold try_finally. specialize (Hm s).
  destruct (m s) as [r s1]. specialize (Hf s1).
  destruct (f s1) as [[u|e] s2]; simpl in *; eapply R_trans; eauto.
Qed.

End Logic.

Lemma returns_ret {A} (Q : A -> Prop) (a : A) : Q a -> returns Q (ret a).
Proof. intros H s a' s' E. unfold ret in E. congruence. Qed.

Lemma returns_raise {A} (Q : A -> Prop) (e : exn) : returns Q (raise e).
Proof. intros s a s' E. discriminate. Qed.

Lemma returns_bind {A B} (Q : B -> Prop) (m : M A) (k : A -> M B) :
  (forall a, returns Q (k a)) -> returns Q (bind m k).
Proof.
  intros Hk s b s' E. unfold bind in E.
  destruct (m s) as [[a|e] s1]; [eapply Hk; eauto | discriminate].
Qed.

Lemma same_calls_refl s : same_calls s s.
Proof. reflexivity. Qed.
Lemma same_calls_trans s1 s2 s3 : same_calls s1 s2 -> same_calls s2 s3 -> same_calls s1 s3.
Proof. unfold same_calls. congruence. Qed.
Lemma same_files_refl s : same_files s s.
Proof. reflexivity. Qed.
Lemma same_files_trans s1 s2 s3 : same_files s1 s2 -> same_files s2 s3 -> same_files s1 s3.
Proof. unfold same_files. congruence. Qed.
Lemma files_kept_refl s : files_kept s s.
Proof. intros q b H. exact H. Qed.
Lemma files_kept_trans s1 s2 s3 : files_kept s1 s2 -> files_kept s2 s3 -> files_kept s1 s3.
Proof. unfold files_kept. eauto. Qed.
Lemma same_files_kept s s' : same_files s s' -> files_kept s s'.
Proof. unfold same_files, files_kept. intros -> q b H. exact H. Qed.

Create HintDb frame.
#[export] Hint Resolve same_calls_refl same_files_refl files_kept_refl : frame.

Ltac frame_trans :=
  first [exact same_calls_trans | exact same_files_trans | exact files_kept_trans].

(** Break a [keeps] goal along the structure of the computation. *)
Ltac keeps_step :=
  first
    [ solve [auto with frame]
    | apply keeps_ret; solve [auto with frame]
    | apply keeps_raise; solve [auto with frame]
    | apply keeps_lift; solve [auto with frame]
    | apply keeps_bind; [frame_trans | | intros ]
    | apply keeps_try_except; [frame_trans | | intros ]
    | apply keeps_try_finally; [frame_trans | | ]
    | match goal with
      | |- keeps _ (if ?b then _ else _) => destruct b
      | |- keeps _ (match ?x with _ => _ end) => destruct x
      end ].
Ltac keeps_auto := cbv zeta; repeat keeps_step.

Section Effects.

Variable w : world.
Variable cfg : config.

(** *** What the file operations do to the log and to the disk *)

Lemma NamedTemporaryFile_calls suffix : keeps same_calls (NamedTemporaryFile w suffix).
Proof.
  intros s. pose proof (NamedTemporaryFile_spec w suffix s) as H.
  destruct (NamedTemporaryFile w suffix s) as [[name|e] s']; simpl; unfold same_calls; tauto.
Qed.

Lemma tmp_write_calls name data : keeps same_calls (tmp_write name data).
Proof. intros s. reflexivity. Qed.

Lemma read_file_calls path : keeps same_calls (read_file w path).
Proof. intros s. unfold read_file. destruct (files s !! path); reflexivity. Qed.

Lemma read_file_files path : keeps same_files (read_file w path).
Proof. intros s. unfold read_file. destruct (files s !! path); reflexivity. Qed.

Lemma os_remove_calls path : keeps same_calls (os_remove w path).
Proof. intros s. unfold os_remove. destruct (files s !! path); reflexivity. Qed.

Lemma uuid4_calls : keeps same_calls (uuid4 w).
Proof. intros s. reflexivity. Qed.

Lemma uuid4_files : keeps same_files (uuid4 w).
Proof. intros s. reflexivity. Qed.

Lemma client_files_upload_calls path : keeps same_calls (client_files_upload w path).
Proof. intros s. reflexivity. Qed.

Lemma client_files_upload_files path : keeps same_files (client_files_upload w path).
Proof. intros s. reflexivity. Qed.

Lemma log_files c : keeps same_files (log c).
Proof. intros s. reflexivity. Qed.

(** Creating a temporary file and writing it leaves the files that were
    there as they were: the name is new. *)
Lemma create_files_kept {A} suffix data (k : string -> M A) :
  (forall tmp, keeps files_kept (k tmp)) ->
  keeps files_kept
    (do tmp <- NamedTemporaryFile w suffix ;; run tmp_write tmp data ;; k tmp).
Proof.
  intros Hk s. unfold bind, tmp_write.
  pose proof (NamedTemporaryFile_spec w suffix s) as H.
  destruct (NamedTemporaryFile w suffix s) as [[name|e] s1]; simpl.
  - destruct H as (Hfresh & Hfiles & _ & _).
    eapply files_kept_trans; [|apply Hk]. intros q b Hq. simpl.
    rewrite Hfiles, !lookup_insert_ne; [exact Hq | congruence ..].
  - destruct H as [H _]. intros q b Hq. rewrite H. exact Hq.
Qed.

End Effects.

#[export] Hint Resolve NamedTemporaryFile_calls tmp_write_calls read_file_calls read_file_files
  os_remove_calls uuid4_calls uuid4_files client_files_upload_calls client_files_upload_files
  log_files : frame.

Lemma keeps_files_kept_of_same {A} (m : M A) : keeps same_files m -> keeps files_kept m.
Proof. intros H s. apply same_files_kept, H. Qed.

#[export] Hint Resolve keeps_files_kept_of_same : frame.

Ltac kept_auto :=
  cbv zeta;
  repeat first
    [ match goal with
      | |- keeps _ (bind (NamedTemporaryFile ?w _) _) => apply (create_files_kept w); intros
      end
    | keeps_step ].

Ltac returns_step :=
  first
    [ apply returns_raise
    | apply returns_ret
    | apply returns_bind; intros
    | match goal with
      | |- returns _ (if ?b then _ else _) => destruct b
      | |- returns _ (match ?x with _ => _ end) => destruct x
      end ].
Ltac returns_auto := cbv zeta; repeat returns_step.

(** ** The provider functions: log, disk and returned dict *)

Section ProviderFacts.

Variable w : world.
Variable cfg : config.

Lemma save_calls img : keeps same_calls (save_base64_image_to_tempfile w img).
Proof. unfold save_base64_image_to_tempfile. keeps_auto. Qed.

Lemma bind_log {A} c (k : unit -> M A) s :
  bind (log c) k s = k tt (State (files s) (entropy s) (calls s ++ [c])%list).
Proof. reflexivity. Qed.

Lemma call_gemini_api_calls t i m s :
  calls (snd (call_gemini_api w cfg t i m s)) = (calls s ++ [CallGemini t i m])%list.
Proof.
  unfold call_gemini_api. rewrite bind_log.
  match goal with |- calls (snd (?k ?s1)) = _ => assert (H : keeps same_calls k) end.
  { keeps_auto. }
  apply H.
Qed.

Lemma call_openai_chat_calls sp t s :
  calls (snd (call_openai_chat w cfg sp t s)) = (calls s ++ [CallOpenAI sp t])%list.
Proof.
  unfold call_openai_chat, call_openai_chat_with. rewrite bind_log.
  match goal with |- calls (snd (?k ?s1)) = _ => assert (H : keeps same_calls k) end.
  { keeps_auto. }
  apply H.
Qed.

Lemma call_openai_chat_files sp t : keeps same_files (call_openai_chat w cfg sp t).
Proof. unfold call_openai_chat, call_openai_chat_with. keeps_auto. Qed.

Lemma call_gemini_api_files t i m : keeps files_kept (call_gemini_api w cfg t i m).
Proof. unfold call_gemini_api. kept_auto. Qed.

Lemma call_gemini_api_returns t i m :
  returns is_provider_reply (call_gemini_api w cfg t i m).
Proof.
  unfold call_gemini_api. returns_auto. eexists _, _; reflexivity.
Qed.

Lemma call_openai_chat_returns sp t :
  returns is_provider_reply (call_openai_chat w cfg sp t).
Proof.
  unfold call_openai_chat, call_openai_chat_with. returns_auto.
  all: eexists _, _; reflexivity.
Qed.

End ProviderFacts.

(** ** The handler, block by block *)

Section HandlerFacts.

Variable w : world.
Variable cfg : config.

(** The [finally] block never raises and leaves the log alone. *)
Lemma cleanup_ok p s : fst (cleanup w p s) = Ok tt.
Proof.
  unfold cleanup, try_except, os_remove, ret.
  destruct p as [p|]; [|reflexivity].
  destruct (str_truthy p); [|reflexivity].
  destruct (files s !! p); reflexivity.
Qed.

Lemma cleanup_calls p : keeps same_calls (cleanup w p).
Proof. unfold cleanup. keeps_auto. Qed.

(** After the [finally] block the tracked file is gone. *)
Lemma cleanup_removes p s :
  str_truthy p = true -> files (snd (cleanup w (Some p) s)) !! p = None.
Proof.
  intros Hp. unfold cleanup, try_except, os_remove, ret. rewrite Hp.
  destruct (files s !! p) eqn:E; simpl.
  - apply lookup_delete_eq.
  - exact E.
Qed.

Lemma provider_block_spec user_text image_bytes mode p s :
  exists o,
    fst (provider_block w cfg user_text image_bytes mode p s) = Ok o
    /\ block_outcome cfg o
    /\ calls (snd (provider_block w cfg user_text image_bytes mode p s))
       = (calls s ++ expected_calls cfg user_text image_bytes mode)%list.
Proof.
  unfold provider_block, try_finally, try_except, expected_calls.
  destruct (opt_truthy (GEMINI_API_KEY cfg)) eqn:Hg;
    [| destruct (opt_truthy (OPENAI_API_KEY cfg)) eqn:Ho ].
  - unfold bind, ret.
    pose proof (call_gemini_api_calls w cfg user_text image_bytes mode s) as Hc.
    pose proof (call_gemini_api_returns w cfg user_text image_bytes mode s) as Hr.
    destruct (call_gemini_api w cfg user_text image_bytes mode s) as [[d|e] s1]; simpl in Hc.
    + destruct (Hr d s1 eq_refl) as (text & raw & ->).
      pose proof (cleanup_ok p s1) as Hk. pose proof (cleanup_calls p s1) as Hkc.
      destruct (cleanup w p s1) as [[[]|e] s2]; simpl in *; [|discriminate].
      eexists; repeat split; [apply BO_gemini; exact Hg | congruence].
    + pose proof (cleanup_ok p s1) as Hk. pose proof (cleanup_calls p s1) as Hkc.
      destruct (cleanup w p s1) as [[[]|e'] s2]; simpl in *; [|discriminate].
      eexists; repeat split; [apply BO_error; rewrite Hg; reflexivity | congruence].
  - unfold bind, ret.
    pose proof (call_openai_chat_calls w cfg (SYSTEM_PROMPT cfg) user_text s) as Hc.
    pose proof (call_openai_chat_returns w cfg (SYSTEM_PROMPT cfg) user_text s) as Hr.
    destruct (call_openai_chat w cfg (SYSTEM_PROMPT cfg) user_text s) as [[d|e] s1]; simpl in Hc.
    + destruct (Hr d s1 eq_refl) as (text & raw & ->).
      pose proof (cleanup_ok p s1) as Hk. pose proof (cleanup_calls p s1) as Hkc.
      destruct (cleanup w p s1) as [[[]|e] s2]; simpl in *; [|discriminate].
      eexists; repeat split; [apply BO_openai; assumption | congruence].
    + pose proof (cleanup_ok p s1) as Hk. pose proof (cleanup_calls p s1) as Hkc.
      destruct (cleanup w p s1) as [[[]|e'] s2]; simpl in *; [|discriminate].
      eexists; repeat split; [apply BO_error; rewrite Hg, Ho; reflexivity | congruence].
  - unfold ret.
    pose proof (cleanup_ok p s) as Hk. pose proof (cleanup_calls p s) as Hkc.
    destruct (cleanup w p s) as [[[]|e'] s2]; simpl in *; [|discriminate].
    eexists; repeat split; [apply BO_none; assumption |].
    rewrite app_nil_r. exact Hkc.
Qed.

(** Lines 124-132 never raise, and call no provider. *)
Lemma load_image_ok img s :
  exists o, fst (load_image w img s) = Ok o.
Proof.
  unfold load_image, try_except.
  destruct (Py.truthy img); [|eexists; reflexivity].
  match goal with |- context [match ?m s with _ => _ end] => destruct (m s) as [[a|e] s1] end;
    eexists; reflexivity.
Qed.

Lemma load_image_calls img : keeps same_calls (load_image w img).
Proof.
  unfold load_image. cbv zeta. destruct (Py.truthy img); keeps_auto.
Qed.

(** A response returned by lines 124-132 is the bad-image answer. *)
Lemma load_image_inl img s resp :
  fst (load_image w img s) = Ok (inl resp) -> exists e, resp = bad_image e.
Proof.
  unfold load_image, try_except, bind, ret.
  destruct (Py.truthy img); [|discriminate].
  destruct (save_base64_image_to_tempfile w img s) as [[p|e] s1]; simpl.
  - destruct (read_file w p s1) as [[b|e] s2]; simpl; [discriminate|].
    intros [= <-]. eexists; reflexivity.
  - intros [= <-]. eexists; reflexivity.
Qed.

Lemma reply_provider_reply text raw used :
  reply (provider_reply text raw) used = Ok (ok_reply text used).
Proof. reflexivity. Qed.

Lemma analyze_classified req s : analyze_outcome cfg req (fst (analyze w cfg req s)).
Proof.
  unfold analyze. destruct (gate_rejects cfg req) eqn:Hgate; [apply AO_unauthorized, Hgate|].
  unfold analyze_body, bind, lift, get_json.
  destruct (json_body req) as [data|]; [|apply AO_raise, Hgate].
  destruct (Py.truthy data); simpl; [|apply AO_invalid_json, Hgate].
  destruct (getattr_get data) as [m|e]; [|apply AO_raise, Hgate].
  simpl.
  destruct (build_user_text _ _ _) as [user_text|e]; [|apply AO_raise, Hgate].
  match goal with |- context [load_image w ?i ?s1] =>
    pose proof (load_image_inl i s1) as Hinl;
    destruct (load_image w i s1) as [[[resp|[p b]]|e] s2]
  end; simpl in *.
  - destruct (Hinl resp eq_refl) as [e ->]. apply AO_bad_image, Hgate.
  - clear Hinl.
    match goal with |- context [provider_block w cfg ?a ?b ?c ?d ?s] =>
      destruct (provider_block_spec a b c d s) as (o & Ho & Hbo & _);
      destruct (provider_block w cfg a b c d s) as [r s3]
    end.
    simpl in Ho. subst r. destruct Hbo; simpl.
    + apply AO_gemini; assumption.
    + apply AO_openai; assumption.
    + apply AO_provider_error; assumption.
    + apply AO_no_provider; assumption.
  - apply AO_raise, Hgate.
Qed.

End HandlerFacts.

(** ** The claims *)

Section Gate.

Variable w : world.
Variable cfg : config.

Lemma gate_rejects_true req :
  gate_rejects cfg req = true <->
  BACKEND_SECRET cfg <> "devsecret" /\ x_backend_secret req <> Some (BACKEND_SECRET cfg).
Proof.
  unfold gate_rejects. rewrite andb_true_iff, !negb_true_iff.
  rewrite String.eqb_neq. apply and_iff_compat_l.
  destruct (x_backend_secret req) as [c|].
  - rewrite String.eqb_neq. split; congruence.
  - split; [discriminate | reflexivity].
Qed.

Lemma gate_rejects_false req :
  gate_rejects cfg req = false <->
  BACKEND_SECRET cfg = "devsecret" \/ x_backend_secret req = Some (BACKEND_SECRET cfg).
Proof.
  unfold gate_rejects. rewrite andb_false_iff, !negb_false_iff.
  rewrite String.eqb_eq. apply or_iff_compat_l.
  destruct (x_backend_secret req) as [c|].
  - rewrite String.eqb_eq. split; congruence.
  - split; discriminate.
Qed.

Lemma analyze_body_not_unauthorized req s r :
  gate_rejects cfg req = false ->
  fst (analyze w cfg req s) = Ok r -> resp_status r <> 401.
Proof.
  intros Hgate Hr. pose proof (analyze_classified w cfg req s) as Hc.
  rewrite Hr in Hc. inversion Hc; subst; simpl; congruence.
Qed.

End Gate.

(** C2 (as amended).  When the configured secret is not the default
    ["devsecret"] and the [x-backend-secret] header is absent or differs
    from it, the handler answers 401 with the error envelope and touches
    nothing.  In every other case (the secret is the default, or the
    header equals it) the gate lets the request in: the handler is the rest
    of the function, and its answer is never a 401. *)
Theorem gate_contract (w : world) (cfg : config) (req : request) (s : state) :
  (BACKEND_SECRET cfg <> "devsecret" ->
   x_backend_secret req <> Some (BACKEND_SECRET cfg) ->
   analyze w cfg req s = (Ok unauthorized, s)
   /\ resp_status unauthorized = 401
   /\ member "status" (resp_body unauthorized) = Some (JStr "error"))
  /\ (BACKEND_SECRET cfg = "devsecret" \/ x_backend_secret req = Some (BACKEND_SECRET cfg) ->
      analyze w cfg req s = analyze_body w cfg req s
      /\ forall r, fst (analyze w cfg req s) = Ok r -> resp_status r <> 401).
Proof.
  split.
  - intros Hd Hh. assert (Hg : gate_rejects cfg req = true) by (apply gate_rejects_true; tauto).
    unfold analyze. rewrite Hg. repeat split.
  - intros H. apply gate_rejects_false in H. split.
    + unfold analyze. rewrite H. reflexivity.
    + intros r. apply analyze_body_not_unauthorized, H.
Qed.

Lemma gate_contract_witness :
  analyze Scenario.w Scenario.with_secret (Scenario.post (Some "wrong") []) Scenario.s0
  = (Ok unauthorized, Scenario.s0)
  /\ analyze Scenario.w Scenario.with_secret (Scenario.post (Some "s3cret") []) Scenario.s0
     = analyze_body Scenario.w Scenario.with_secret (Scenario.post (Some "s3cret") []) Scenario.s0.
Proof.
  split.
  - apply (gate_contract Scenario.w Scenario.with_secret
             (Scenario.post (Some "wrong") []) Scenario.s0); [discriminate | discriminate].
  - apply (gate_contract Scenario.w Scenario.with_secret
             (Scenario.post (Some "s3cret") []) Scenario.s0). right. reflexivity.
Defined.

(** C2 as the spec words it fails: with the secret configured as the empty
    string, a request without the header is answered 401, although the spec
    counts an empty secret among the cases where the gate lets every caller
    in. *)
Lemma gate_empty_secret_rejects :
  ~ spec_gate Scenario.w Scenario.empty_secret
      (Scenario.post None [("message_text", JStr "hello")]) Scenario.s0.
Proof.
  intros [_ H].
  assert (Hpass : analyze Scenario.w Scenario.empty_secret
                    (Scenario.post None [("message_text", JStr "hello")]) Scenario.s0
                  = analyze_body Scenario.w Scenario.empty_secret
                      (Scenario.post None [("message_text", JStr "hello")]) Scenario.s0).
  { apply H. intros (_ & Hne & _). apply Hne. reflexivity. }
  vm_compute in Hpass. discriminate Hpass.
Qed.

(** C10.  Every 200 answer of the handler carries [reply_type] equal to
    ["analysis"], whatever the provider, the mode and the provider's
    content: both provider functions put that constant in the dict they
    return, and the handler copies it. *)
Theorem reply_type_is_analysis (w : world) (cfg : config) (req : request) (s : state)
    (r : response) :
  fst (analyze w cfg req s) = Ok r ->
  resp_status r = 200 ->
  member "reply_type" (resp_body r) = Some (JStr "analysis").
Proof.
  intros Hr Hstatus. pose proof (analyze_classified w cfg req s) as Hc.
  rewrite Hr in Hc. inversion Hc; subst; simpl in Hstatus; try discriminate; reflexivity.
Qed.

Lemma reply_type_is_analysis_witness :
  member "reply_type"
    (resp_body (ok_reply (JStr "hi") "openai")) = Some (JStr "analysis").
Proof.
  apply (reply_type_is_analysis Scenario.w Scenario.openai_only
           (Scenario.post None [("message_text", JStr "hello"); ("mode", JStr "full")])
           Scenario.s0).
  - vm_compute. reflexivity.
  - reflexivity.
Defined.

Section Selection.

Variable w : world.
Variable cfg : config.

(** The handler from the point where the request has been normalized. *)
Lemma analyze_reaches_provider req s m user_text temp_image_path image_bytes s2 :
  gate_rejects cfg req = false ->
  json_body req = Some (JObj m) ->
  m <> [] ->
  build_user_text w (mode_of m) (text_of m) = Ok user_text ->
  load_image w (image_of m) (after_uuid s) = (Ok (inr (temp_image_path, image_bytes)), s2) ->
  analyze w cfg req s =
  match provider_block w cfg user_text image_bytes (mode_of m) temp_image_path s2 with
  | (Ok (inl resp), s3) => (Ok resp, s3)
  | (Ok (inr (ai_resp, used)), s3) => (reply ai_resp used, s3)
  | (Raise e, s3) => (Raise e, s3)
  end.
Proof.
  intros Hgate Hbody Hm Hut Hload.
  unfold analyze. rewrite Hgate. unfold analyze_body, bind, lift, get_json. rewrite Hbody.
  destruct m as [|kv m']; [congruence|].
  change (Py.truthy (JObj (kv :: m'))) with true. cbn [negb].
  unfold getattr_get, uuid4. fold (after_uuid s). cbv zeta.
  fold (mode_of (kv :: m')) (text_of (kv :: m')) (image_of (kv :: m')).
  rewrite Hut, Hload.
  destruct (provider_block _ _ _ _ _ _ _) as [[[resp|[d used]]|e] s3]; reflexivity.
Qed.

(** The answer of the handler is then the outcome of lines 133-149. *)
Lemma analyze_through_block req s m user_text temp_image_path image_bytes s2 :
  gate_rejects cfg req = false ->
  json_body req = Some (JObj m) ->
  m <> [] ->
  build_user_text w (mode_of m) (text_of m) = Ok user_text ->
  load_image w (image_of m) (after_uuid s) = (Ok (inr (temp_image_path, image_bytes)), s2) ->
  fst (analyze w cfg req s) =
  match fst (provider_block w cfg user_text image_bytes (mode_of m) temp_image_path s2) with
  | Ok (inl resp) => Ok resp
  | Ok (inr (ai_resp, used)) => reply ai_resp used
  | Raise e => Raise e
  end.
Proof.
  intros Hgate Hbody Hm Hut Hload.
  rewrite (analyze_reaches_provider req s m user_text temp_image_path image_bytes s2)
    by assumption.
  destruct (provider_block _ _ _ _ _ _ _) as [[[resp|[d used]]|e] s3]; reflexivity.
Qed.

(** What the handler adds to the log of provider calls: nothing, or the
    one call the configuration selects, made with the text of lines
    120-123. *)
Lemma analyze_calls req s :
  calls (snd (analyze w cfg req s)) = calls s
  \/ exists m user_text image_bytes,
       json_body req = Some (JObj m)
       /\ build_user_text w (mode_of m) (text_of m) = Ok user_text
       /\ calls (snd (analyze w cfg req s))
          = (calls s ++ expected_calls cfg user_text image_bytes (mode_of m))%list.
Proof.
  unfold analyze. destruct (gate_rejects cfg req) eqn:Hgate; [left; reflexivity|].
  unfold analyze_body, bind, lift, get_json.
  destruct (json_body req) as [data|] eqn:Hbody; [|left; reflexivity].
  destruct (Py.truthy data) eqn:Ht; simpl; [|left; reflexivity].
  destruct data as [| | | | |l|m]; simpl; try (left; reflexivity).
  fold (mode_of m) (text_of m) (image_of m).
  destruct (build_user_text w (mode_of m) (text_of m)) as [user_text|e] eqn:Hut;
    [|left; reflexivity].
  match goal with |- context [load_image w ?i ?s1] =>
    pose proof (load_image_calls w i s1) as Hlc;
    destruct (load_image w i s1) as [[[resp|[p b]]|e] s2]
  end; simpl in Hlc; unfold same_calls in Hlc; simpl in Hlc.
  - left. exact Hlc.
  - right. exists m, user_text, b. split; [reflexivity|]. split; [exact Hut|].
    destruct (provider_block_spec w cfg user_text b (mode_of m) p s2) as (o & Ho & _ & Hcalls).
    destruct (provider_block w cfg user_text b (mode_of m) p s2) as [r s3].
    simpl in Ho, Hcalls. subst r.
    destruct o as [resp|[d used]]; simpl; rewrite Hcalls, Hlc; reflexivity.
  - left. exact Hlc.
Qed.

End Selection.

(** C6.  Provider selection, in the order of the code; a credential counts
    as configured when the variable is set to a non-empty string.
    - With a Gemini credential, lines 133-149 call [call_gemini_api] and
      nothing else, and every 200 answer of the handler has
      [meta.used_provider = "gemini"].
    - Without one but with an OpenAI credential, they call
      [call_openai_chat] with the persona and the text, and every 200
      answer has [meta.used_provider = "openai"].
    - With neither, lines 133-149 call no provider and return the 500
      answer "No AI provider configured ..."; a request that gets through
      the gate and the normalizer is answered that, and no request is
      answered 200. *)
Theorem provider_selection (w : world) (cfg : config) :
  (opt_truthy (GEMINI_API_KEY cfg) = true ->
   (forall user_text image_bytes mode p s,
       calls (snd (provider_block w cfg user_text image_bytes mode p s))
       = (calls s ++ [CallGemini user_text image_bytes mode])%list)
   /\ (forall req s r,
         fst (analyze w cfg req s) = Ok r -> resp_status r = 200 ->
         used_provider r = Some (JStr "gemini")))
  /\ (opt_truthy (GEMINI_API_KEY cfg) = false ->
      opt_truthy (OPENAI_API_KEY cfg) = true ->
      (forall user_text image_bytes mode p s,
          calls (snd (provider_block w cfg user_text image_bytes mode p s))
          = (calls s ++ [CallOpenAI (SYSTEM_PROMPT cfg) user_text])%list)
      /\ (forall req s r,
            fst (analyze w cfg req s) = Ok r -> resp_status r = 200 ->
            used_provider r = Some (JStr "openai")))
  /\ (opt_truthy (GEMINI_API_KEY cfg) = false ->
      opt_truthy (OPENAI_API_KEY cfg) = false ->
      (forall user_text image_bytes mode p s,
          fst (provider_block w cfg user_text image_bytes mode p s) = Ok (inl no_provider)
          /\ calls (snd (provider_block w cfg user_text image_bytes mode p s)) = calls s)
      /\ resp_status no_provider = 500
      /\ (forall req s m user_text temp_image_path image_bytes s2,
            gate_rejects cfg req = false ->
            json_body req = Some (JObj m) ->
            m <> [] ->
            build_user_text w (mode_of m) (text_of m) = Ok user_text ->
            load_image w (image_of m) (after_uuid s)
            = (Ok (inr (temp_image_path, image_bytes)), s2) ->
            fst (analyze w cfg req s) = Ok no_provider)
      /\ (forall req s r,
            fst (analyze w cfg req s) = Ok r ->
            r = unauthorized \/ r = invalid_json_payload
            \/ (exists e, r = bad_image e) \/ r = no_provider)).
Proof.
  split; [|split].
  - intros Hg. split.
    + intros ut ib mode p s.
      destruct (provider_block_spec w cfg ut ib mode p s) as (_ & _ & _ & Hc).
      rewrite Hc. unfold expected_calls. rewrite Hg. reflexivity.
    + intros req s r Hr Hst. pose proof (analyze_classified w cfg req s) as Hc.
      rewrite Hr in Hc.
      inversion Hc; subst; simpl in Hst; try discriminate; try reflexivity; congruence.
  - intros Hg Ho. split.
    + intros ut ib mode p s.
      destruct (provider_block_spec w cfg ut ib mode p s) as (_ & _ & _ & Hc).
      rewrite Hc. unfold expected_calls. rewrite Hg, Ho. reflexivity.
    + intros req s r Hr Hst. pose proof (analyze_classified w cfg req s) as Hc.
      rewrite Hr in Hc.
      inversion Hc; subst; simpl in Hst; try discriminate; try reflexivity; congruence.
  - intros Hg Ho.
    assert (Hblock : forall ut ib mode p s,
               fst (provider_block w cfg ut ib mode p s) = Ok (inl no_provider)).
    { intros ut ib mode p s.
      destruct (provider_block_spec w cfg ut ib mode p s) as (o & Hfst & Hbo & _).
      rewrite Hfst. inversion Hbo; subst; try congruence.
      rewrite Hg, Ho in *. discriminate. }
    split; [|split; [|split]].
    + intros ut ib mode p s. split; [apply Hblock|].
      destruct (provider_block_spec w cfg ut ib mode p s) as (_ & _ & _ & Hc).
      rewrite Hc. unfold expected_calls. rewrite Hg, Ho. apply app_nil_r.
    + reflexivity.
    + intros req s m ut p b s2 Hgate Hbody Hm Hut Hload.
      rewrite (analyze_through_block w cfg req s m ut p b s2) by assumption.
      rewrite Hblock. reflexivity.
    + intros req s r Hr. pose proof (analyze_classified w cfg req s) as Hc.
      rewrite Hr in Hc. inversion Hc; subst; eauto; try congruence.
      rewrite Hg, Ho in *. discriminate.
Qed.

Lemma provider_selection_witness :
  used_provider (ok_reply (JStr "answer") "gemini") = Some (JStr "gemini")
  /\ used_provider (ok_reply (JStr "hi") "openai") = Some (JStr "openai")
  /\ fst (analyze Scenario.w Scenario.no_keys
            (Scenario.post None [("message_text", JStr "hello")]) Scenario.s0)
     = Ok no_provider.
Proof.
  split; [|split].
  - destruct (provider_selection Scenario.w Scenario.gemini_only) as (Hg & _ & _).
    destruct (Hg eq_refl) as [_ Hused].
    apply (Hused (Scenario.post None [("message_text", JStr "hello")]) Scenario.s0).
    + vm_compute. reflexivity.
    + reflexivity.
  - destruct (provider_selection Scenario.w Scenario.openai_only) as (_ & Ho & _).
    destruct (Ho eq_refl eq_refl) as [_ Hused].
    apply (Hused (Scenario.post None [("message_text", JStr "hello")]) Scenario.s0).
    + vm_compute. reflexivity.
    + reflexivity.
  - destruct (provider_selection Scenario.w Scenario.no_keys) as (_ & _ & Hn).
    destruct (Hn eq_refl eq_refl) as (_ & _ & Hreach & _).
    apply (Hreach (Scenario.post None [("message_text", JStr "hello")]) Scenario.s0
             [("message_text", JStr "hello")] (JStr "hello") None None
             (after_uuid Scenario.s0));
      [reflexivity | reflexivity | discriminate | reflexivity | reflexivity].
Defined.

Section ModeMarker.

Lemma dict_get_find m key default :
  Py.dict_get m key default
  = match Py.dict_find m key with Some v => v | None => default end.
Proof.
  induction m as [|[k v] m IH]; simpl; [reflexivity|].
  destruct (String.eqb k key); [reflexivity | exact IH].
Qed.

Lemma expected_calls_text cfg user_text image_bytes mode c :
  In c (expected_calls cfg user_text image_bytes mode) -> call_text c = user_text.
Proof.
  unfold expected_calls.
  destruct (opt_truthy (GEMINI_API_KEY cfg)); [|destruct (opt_truthy (OPENAI_API_KEY cfg))];
    simpl; intros H; repeat destruct H as [<-|H]; try reflexivity; destruct H.
Qed.

End ModeMarker.

(** C7.  Whenever the handler calls a provider function, the body is a
    JSON object and the text it passes is fixed by [mode] and
    [message_text] (read with the empty string as default):
    - [mode] absent, or the string ["auto"]: [message_text], unchanged;
    - [mode] another string: ["[MODE: "], the mode in upper case as
      [str.upper] of the interpreter gives it, ["]"], two line feeds, then
      [message_text] (printed by [str] in the f-string, which for a string
      is the string itself);
    - [mode] present and not a string: no provider is called at all. *)
Theorem mode_marker (w : world) (cfg : config) (req : request) (s : state)
    (l : list call) (c : call) :
  calls (snd (analyze w cfg req s)) = (calls s ++ l)%list ->
  In c l ->
  exists m,
    json_body req = Some (JObj m)
    /\ match Py.dict_find m "mode" with
       | None => call_text c = text_of m
       | Some (JStr mode) =>
           if String.eqb mode "auto" then call_text c = text_of m
           else call_text c
                = JStr ("[MODE: " ++ str_upper (unicode w) mode ++ "]" ++ newline ++ newline
                        ++ Py.str (unicode w) (text_of m))
       | Some _ => False
       end.
Proof.
  intros Hcalls Hin.
  destruct (analyze_calls w cfg req s) as [Hsame | (m & ut & ib & Hbody & Hut & Hc)].
  - rewrite Hsame in Hcalls. rewrite <- (app_nil_r (calls s)) in Hcalls at 1.
    apply app_inv_head in Hcalls. subst l. destruct Hin.
  - rewrite Hc in Hcalls. apply app_inv_head in Hcalls. subst l.
    apply expected_calls_text in Hin. exists m. split; [exact Hbody|].
    unfold build_user_text, mode_of in Hut. rewrite dict_get_find in Hut.
    destruct (Py.dict_find m "mode") as [mode|].
    + destruct mode; simpl in Hut; try discriminate.
      destruct (String.eqb s0 "auto"); simpl in Hut; congruence.
    + simpl in Hut. congruence.
Qed.

Lemma mode_marker_witness :
  exists m,
    json_body Scenario.summary_request = Some (JObj m)
    /\ match Py.dict_find m "mode" with
       | None => call_text Scenario.summary_call = text_of m
       | Some (JStr mode) =>
           if String.eqb mode "auto" then call_text Scenario.summary_call = text_of m
           else call_text Scenario.summary_call
                = JStr ("[MODE: " ++ str_upper (unicode Scenario.w) mode ++ "]"
                        ++ newline ++ newline
                        ++ Py.str (unicode Scenario.w) (text_of m))
       | Some _ => False
       end.
Proof.
  apply (mode_marker Scenario.w Scenario.gemini_only Scenario.summary_request Scenario.s0
           [Scenario.summary_call]).
  - vm_compute. reflexivity.
  - left. reflexivity.
Defined.

Section OpenAI.

Variable w : world.
Variable cfg : config.

Lemma raise_for_status_error url resp :
  400 <= status_code resp < 600 ->
  exists e, raise_for_status url resp = Raise e /\ exn_class e = "HTTPError".
Proof.
  intros H. unfold raise_for_status.
  destruct ((400 <=? status_code resp) && (status_code resp <? 500)) eqn:E4.
  - generalize (pretty (status_code resp)). intros p. destruct p; eexists; split; reflexivity.
  - assert (E5 : (500 <=? status_code resp) && (status_code resp <? 600) = true).
    { apply andb_false_iff in E4. apply andb_true_iff. split; [apply Z.leb_le | apply Z.ltb_lt]; [|lia].
      destruct E4 as [E4|E4]; [apply Z.leb_gt in E4 | apply Z.ltb_ge in E4]; lia. }
    rewrite E5. generalize (pretty (status_code resp)). intros p.
    destruct p; eexists; split; reflexivity.
Qed.

Lemma raise_for_status_pass url resp :
  ~ (400 <= status_code resp < 600) -> raise_for_status url resp = Ok tt.
Proof.
  intros H. unfold raise_for_status.
  destruct ((400 <=? status_code resp) && (status_code resp <? 500)) eqn:E4.
  - apply andb_true_iff in E4. destruct E4 as [E1 E2].
    apply Z.leb_le in E1. apply Z.ltb_lt in E2. lia.
  - destruct ((500 <=? status_code resp) && (status_code resp <? 600)) eqn:E5; [|reflexivity].
    apply andb_true_iff in E5. destruct E5 as [E1 E2].
    apply Z.leb_le in E1. apply Z.ltb_lt in E2. lia.
Qed.

(** Lines 133-149 on the OpenAI path, from the outcome of the call. *)
Lemma provider_block_openai user_text image_bytes mode p s :
  opt_truthy (GEMINI_API_KEY cfg) = false ->
  opt_truthy (OPENAI_API_KEY cfg) = true ->
  fst (provider_block w cfg user_text image_bytes mode p s)
  = match fst (call_openai_chat w cfg (SYSTEM_PROMPT cfg) user_text s) with
    | Ok ai_resp => Ok (inr (ai_resp, "openai"))
    | Raise e => Ok (inl (provider_error e))
    end.
Proof.
  intros Hg Ho. unfold provider_block, try_finally, try_except, bind, ret. rewrite Hg, Ho.
  destruct (call_openai_chat w cfg (SYSTEM_PROMPT cfg) user_text s) as [[d|e] s1]; simpl.
  - pose proof (cleanup_ok w p s1) as Hk.
    destruct (cleanup w p s1) as [[[]|e] s2]; simpl in *; [reflexivity | discriminate].
  - pose proof (cleanup_ok w p s1) as Hk.
    destruct (cleanup w p s1) as [[[]|e'] s2]; simpl in *; [reflexivity | discriminate].
Qed.

(** The subscripts of line 102 succeed exactly on the expected shape. *)
Lemma extract_content_shape j c : extract_content w j = Ok c <-> has_content j c.
Proof.
  unfold extract_content, has_content. split.
  - destruct j as [| | | | | |m]; simpl; try discriminate.
    destruct (Py.dict_find m "choices") as [choices|] eqn:Hc; [|discriminate].
    destruct choices as [| | | |s|l|cm]; simpl; try discriminate.
    + destruct s; simpl; discriminate.
    + destruct l as [|choice rest]; simpl; [discriminate|].
      destruct choice as [| | | | | |cm]; simpl; try discriminate.
      destruct (Py.dict_find cm "message") as [message|] eqn:Hm; [|discriminate].
      destruct message as [| | | | | |mm]; simpl; try discriminate.
      destruct (Py.dict_find mm "content") as [content|] eqn:Hcont; [|discriminate].
      intros [= <-]. exists m, cm, rest, mm. auto.
  - intros (m & choice & rest & message & -> & Hc & Hm & Hcont).
    simpl. rewrite Hc. simpl. rewrite Hm. simpl. rewrite Hcont. reflexivity.
Qed.

(** The outcome of [call_openai_chat] when the upstream answer is [resp]. *)
Lemma call_openai_chat_outcome sp user_text s resp :
  opt_truthy (OPENAI_API_KEY cfg) = true ->
  (forall url headers body timeout, requests_post w url headers body timeout = Ok resp) ->
  fst (call_openai_chat w cfg sp user_text s)
  = match raise_for_status openai_url resp with
    | Raise e => Raise e
    | Ok _ =>
        match resp_json resp with
        | Raise e => Raise e
        | Ok j =>
            Ok (provider_reply
                  (match extract_content w j with
                   | Ok content => content
                   | Raise _ => JStr (Py.json_dumps (unicode w) j)
                   end)
                  (PJson j))
        end
    end.
Proof.
  intros Ho Hpost.
  unfold call_openai_chat, call_openai_chat_with. rewrite bind_log. rewrite Ho. cbn [negb].
  cbv zeta. unfold bind, lift, try_except, ret. rewrite Hpost. fold openai_url.
  destruct (raise_for_status openai_url resp) as [[]|e]; [|reflexivity].
  destruct (resp_json resp) as [j|e]; [|reflexivity].
  destruct (extract_content w j) as [content|e]; reflexivity.
Qed.

End OpenAI.

(** C8 (as amended).  On the OpenAI path, when the upstream answer is
    [resp]:
    - a status from 400 to 599 makes [raise_for_status] raise an
      [HTTPError], and lines 133-149 return the 500 envelope
      "AI provider error" carrying its text;
    - any other status (the 2xx ones, and also 1xx, 3xx and 600 and above,
      for which [raise_for_status] does nothing) with a body that parses to
      [j] gives the reply text [j["choices"][0]["message"]["content"]] when
      [j] has that shape and [json.dumps(j)] otherwise (with the string
      escapes of the interpreter), and the call does not raise;
    - the subscripts succeed exactly on that shape.
    What lines 133-149 return is what the handler answers
    ([analyze_through_block]): the 500 envelope as it is, the reply dict
    wrapped in the 200 envelope. *)
Theorem openai_status_and_text (w : world) (cfg : config) (resp : http_response)
    (user_text : json) (image_bytes : option bytes) (mode : json)
    (p : option string) (s : state) :
  opt_truthy (GEMINI_API_KEY cfg) = false ->
  opt_truthy (OPENAI_API_KEY cfg) = true ->
  (forall url headers body timeout, requests_post w url headers body timeout = Ok resp) ->
  (400 <= status_code resp < 600 ->
   exists e,
     raise_for_status openai_url resp = Raise e
     /\ exn_class e = "HTTPError"
     /\ fst (provider_block w cfg user_text image_bytes mode p s)
        = Ok (inl (provider_error e))
     /\ resp_status (provider_error e) = 500
     /\ member "error" (resp_body (provider_error e)) = Some (JStr (exn_str e)))
  /\ (~ (400 <= status_code resp < 600) ->
      forall j, resp_json resp = Ok j ->
        fst (provider_block w cfg user_text image_bytes mode p s)
        = Ok (inr (provider_reply
                     (match extract_content w j with
                      | Ok content => content
                      | Raise _ => JStr (Py.json_dumps (unicode w) j)
                      end)
                     (PJson j), "openai")))
  /\ (forall j content, extract_content w j = Ok content <-> has_content j content).
Proof.
  intros Hg Ho Hpost. split; [|split].
  - intros Hst. destruct (raise_for_status_error openai_url resp Hst) as (e & He & Hcls).
    exists e. split; [exact He|]. split; [exact Hcls|]. split; [|split; reflexivity].
    rewrite (provider_block_openai w cfg) by assumption.
    rewrite (call_openai_chat_outcome w cfg _ _ _ resp) by assumption.
    rewrite He. reflexivity.
  - intros Hst j Hj.
    rewrite (provider_block_openai w cfg) by assumption.
    rewrite (call_openai_chat_outcome w cfg _ _ _ resp) by assumption.
    rewrite (raise_for_status_pass openai_url resp Hst), Hj. reflexivity.
  - intros j content. apply extract_content_shape.
Qed.

Lemma openai_status_and_text_witness :
  fst (provider_block (Scenario.world_with_status 200 "OK") Scenario.openai_only
         (JStr "hello") None (JStr "auto") None Scenario.s0)
  = Ok (inr (provider_reply (JStr "hi") (PJson (Scenario.completion "hi")), "openai"))
  /\ exists e,
       fst (provider_block (Scenario.world_with_status 503 "Service Unavailable")
              Scenario.openai_only (JStr "hello") None (JStr "auto") None Scenario.s0)
       = Ok (inl (provider_error e)).
Proof.
  split.
  - destruct (openai_status_and_text (Scenario.world_with_status 200 "OK")
                Scenario.openai_only
                (HttpResponse 200 "OK" (Ok (Scenario.completion "hi")))
                (JStr "hello") None (JStr "auto") None Scenario.s0
                eq_refl eq_refl (fun _ _ _ _ => eq_refl)) as (_ & H & _).
    apply (H ltac:(simpl; lia) (Scenario.completion "hi") eq_refl).
  - destruct (openai_status_and_text (Scenario.world_with_status 503 "Service Unavailable")
                Scenario.openai_only
                (HttpResponse 503 "Service Unavailable" (Ok (Scenario.completion "hi")))
                (JStr "hello") None (JStr "auto") None Scenario.s0
                eq_refl eq_refl (fun _ _ _ _ => eq_refl)) as (H & _ & _).
    destruct (H ltac:(simpl; lia)) as (e & _ & _ & Hblock & _).
    exists e. exact Hblock.
Defined.

(** C8 as the spec words it fails: an upstream answer with status 300 and
    a well-formed completion body is not turned into a Provider-Error; the
    handler answers 200 with the completion text. *)
Lemma openai_status_300_accepted :
  ~ spec_non_2xx_fails (Scenario.world_with_status 300 "Multiple Choices")
      Scenario.openai_only (Scenario.post None [("message_text", JStr "hello")])
      Scenario.s0
      (HttpResponse 300 "Multiple Choices" (Ok (Scenario.completion "hi"))).
Proof.
  intros H.
  apply (H eq_refl eq_refl (fun _ _ _ _ => eq_refl) ltac:(simpl; lia)
           (ok_reply (JStr "hi") "openai")).
  - vm_compute. reflexivity.
  - reflexivity.
Qed.

Section Normalizer.

Variable w : world.

(** What saving the image leaves on disk. *)
Lemma save_outcome img s :
  match save_base64_image_to_tempfile w img s with
  | (Ok p, s1) =>
      exists binary,
        files s1 = <[p := binary]> (files s) /\ files s !! p = None
        /\ str_truthy p = true /\ calls s1 = calls s
  | (Raise _, s1) => files s1 = files s /\ calls s1 = calls s
  end.
Proof.
  unfold save_base64_image_to_tempfile. cbv zeta. unfold bind, lift, ret, tmp_write.
  destruct (contains_header_sep "base64," img) as [found|e]; [|split; reflexivity].
  assert (Hrest : forall v : json,
    match
      (match Base64.b64decode v with
       | Ok binary =>
           match NamedTemporaryFile w ".png" s with
           | (Ok tmp, s') =>
               (Ok tmp, State (<[tmp := binary]> (files s')) (entropy s') (calls s'))
           | (Raise e, s') => (Raise e, s')
           end
       | Raise e => (Raise e, s)
       end : result string * state)
    with
    | (Ok p, s1) =>
        exists binary,
          files s1 = <[p := binary]> (files s) /\ files s !! p = None
          /\ str_truthy p = true /\ calls s1 = calls s
    | (Raise _, s1) => files s1 = files s /\ calls s1 = calls s
    end).
  { intros v. destruct (Base64.b64decode v) as [binary|e]; [|split; reflexivity].
    pose proof (NamedTemporaryFile_spec w ".png" s) as HT.
    destruct (NamedTemporaryFile w ".png" s) as [[tmp|e] s']; simpl.
    - destruct HT as (Hfresh & Hfiles & Hcalls & Hname). exists binary.
      rewrite Hfiles, insert_insert_eq. auto.
    - exact HT. }
  destruct found.
  - destruct (split_second "base64," img) as [v|e]; [apply Hrest | split; reflexivity].
  - apply Hrest.
Qed.

(** Lines 124-132, outcome by outcome. *)
Lemma load_image_outcome img s :
  match load_image w img s with
  | (Ok (inl r), s1) =>
      Py.truthy img = true /\ files s1 = files s
      /\ exists e, fst (save_base64_image_to_tempfile w img s) = Raise e /\ r = bad_image e
  | (Ok (inr (Some p, Some b)), s1) =>
      Py.truthy img = true
      /\ fst (save_base64_image_to_tempfile w img s) = Ok p
      /\ files s1 = <[p := b]> (files s) /\ files s !! p = None /\ str_truthy p = true
  | (Ok (inr (None, None)), s1) => Py.truthy img = false /\ s1 = s
  | _ => False
  end.
Proof.
  unfold load_image. cbv zeta. destruct (Py.truthy img); [|split; reflexivity].
  unfold try_except, bind, ret, read_file.
  pose proof (save_outcome img s) as Hs.
  destruct (save_base64_image_to_tempfile w img s) as [[p|e] s1]; simpl.
  - destruct Hs as (binary & Hfiles & Hfresh & Hname & _).
    rewrite Hfiles, lookup_insert_eq. simpl. auto.
  - split; [reflexivity|]. split; [apply Hs|]. exists e. split; reflexivity.
Qed.

End Normalizer.

(** C5 (as amended).  Once the gate has let the request in:
    - a body that is missing or does not parse makes [get_json] raise
      [BadRequest] out of the handler (Flask answers it, the handler writes
      no envelope);
    - the handler answers 400 with an error envelope in exactly two cases:
      the parsed body is falsy ([null], [false], [0], the empty string,
      array or object), answered "invalid json payload"; or the body is a
      non-empty object whose [mode] is absent or a string and whose
      [image_base64] is truthy and cannot be saved, answered
      "bad image base64" with the text of the exception. *)
Theorem bad_request_iff (w : world) (cfg : config) (req : request) (s : state)
    (r : response) :
  gate_rejects cfg req = false ->
  (json_body req = None ->
   exists e, fst (analyze w cfg req s) = Raise e /\ exn_class e = "BadRequest")
  /\ ((fst (analyze w cfg req s) = Ok r /\ resp_status r = 400)
      <-> ((exists data,
              json_body req = Some data /\ Py.truthy data = false
              /\ r = invalid_json_payload)
           \/ (exists m user_text e,
                 json_body req = Some (JObj m) /\ m <> []
                 /\ build_user_text w (mode_of m) (text_of m) = Ok user_text
                 /\ image_fails w m s e /\ r = bad_image e))).
Proof.
  intros Hgate. split.
  - intros Hnone. unfold analyze. rewrite Hgate.
    unfold analyze_body, bind, lift, get_json. rewrite Hnone.
    eexists. split; reflexivity.
  - unfold analyze. rewrite Hgate. unfold analyze_body, bind, lift, get_json. split.
    + intros [Hr Hst].
      destruct (json_body req) as [data|]; [|discriminate].
      destruct (Py.truthy data) eqn:Ht; simpl in Hr.
      2:{ left. exists data. injection Hr as <-. auto. }
      destruct data as [| | | | | |m]; simpl in Hr; try discriminate.
      fold (after_uuid s) (mode_of m) (text_of m) (image_of m) in Hr.
      destruct (build_user_text w (mode_of m) (text_of m)) as [user_text|e] eqn:Hut;
        [|discriminate].
      pose proof (load_image_outcome w (image_of m) (after_uuid s)) as Hl.
      destruct (load_image w (image_of m) (after_uuid s)) as [[[resp|[p b]]|e] s2];
        simpl in Hr.
      * destruct Hl as (Htruthy & _ & e & Hsave & ->). injection Hr as <-.
        right. exists m, user_text, e. repeat split; auto.
        intros ->. discriminate.
      * exfalso.
        destruct (provider_block_spec w cfg user_text b (mode_of m) p s2)
          as (o & Ho & Hbo & _).
        destruct (provider_block w cfg user_text b (mode_of m) p s2) as [ro s3].
        simpl in Ho. subst ro. destruct Hbo; simpl in Hr; injection Hr as <-; discriminate.
      * discriminate.
    + intros [(data & Hbody & Ht & ->) | (m & user_text & e & Hbody & Hm & Hut & [Hti Hsave] & ->)].
      * rewrite Hbody, Ht. split; reflexivity.
      * rewrite Hbody. destruct m as [|kv m']; [congruence|].
        change (Py.truthy (JObj (kv :: m'))) with true. cbn [negb getattr_get].
        unfold uuid4. fold (after_uuid s). cbv zeta.
        fold (mode_of (kv :: m')) (text_of (kv :: m')) (image_of (kv :: m')).
        rewrite Hut.
        pose proof (load_image_outcome w (image_of (kv :: m')) (after_uuid s)) as Hl.
        destruct (load_image w (image_of (kv :: m')) (after_uuid s))
          as [[[resp|[[p|] [b|]]]|e'] s2]; simpl; try contradiction.
        -- destruct Hl as (_ & _ & e' & Hsave' & ->). rewrite Hsave in Hsave'.
           injection Hsave' as <-. split; reflexivity.
        -- destruct Hl as (_ & Hok & _). rewrite Hsave in Hok. discriminate.
        -- destruct Hl as [Hf _]. rewrite Hti in Hf. discriminate.
Qed.

Lemma bad_request_iff_witness :
  fst (analyze Scenario.w Scenario.no_keys
         (Scenario.post None [("image_base64", JStr "QUJDQ")]) Scenario.s0)
  = Ok (bad_image
          (Base64.Error
             "Invalid base64-encoded string: number of data characters (5) cannot be 1 more than a multiple of 4"))
  /\ fst (analyze Scenario.w Scenario.no_keys (Request None (Some (JNum 0))) Scenario.s0)
     = Ok invalid_json_payload.
Proof.
  split.
  - apply (bad_request_iff Scenario.w Scenario.no_keys
             (Scenario.post None [("image_base64", JStr "QUJDQ")]) Scenario.s0
             (bad_image
                (Base64.Error
                   "Invalid base64-encoded string: number of data characters (5) cannot be 1 more than a multiple of 4"))
             eq_refl).
    right. exists [("image_base64", JStr "QUJDQ")], (JStr EmptyString). eexists.
    split; [reflexivity|]. split; [discriminate|]. split; [reflexivity|].
    split; [|reflexivity]. split; [reflexivity | vm_compute; reflexivity].
  - apply (bad_request_iff Scenario.w Scenario.no_keys
             (Request None (Some (JNum 0))) Scenario.s0 invalid_json_payload eq_refl).
    left. exists (JNum 0). repeat split.
Defined.

(** C5 as the spec words it fails: the empty object is valid JSON and
    carries no image, yet it is answered 400 "invalid json payload". *)
Lemma empty_object_rejected :
  ~ spec_bad_request Scenario.w Scenario.no_keys (Scenario.post None []) Scenario.s0.
Proof.
  intros [H _].
  destruct H as [Hnone | (m & e & Hbody & Htruthy & _)].
  - exists invalid_json_payload. split; reflexivity.
  - discriminate Hnone.
  - injection Hbody as <-. discriminate Htruthy.
Qed.

Section UserId.

Lemma dict_get_without_user_id m key default :
  key <> "user_id" ->
  Py.dict_get (without_user_id m) key default = Py.dict_get m key default.
Proof.
  intros Hkey. induction m as [|[k v] m IH]; simpl; [reflexivity|].
  destruct (String.eqb k "user_id") eqn:Ek; simpl.
  - apply String.eqb_eq in Ek. subst k.
    destruct (String.eqb "user_id" key) eqn:E; [|exact IH].
    apply String.eqb_eq in E. congruence.
  - rewrite IH. reflexivity.
Qed.

Lemma fields_without_user_id m1 m2 :
  without_user_id m1 = without_user_id m2 ->
  mode_of m1 = mode_of m2 /\ text_of m1 = text_of m2 /\ image_of m1 = image_of m2.
Proof.
  intros H. unfold mode_of, text_of, image_of.
  rewrite <- (dict_get_without_user_id m1 "mode"), <- (dict_get_without_user_id m2 "mode"),
    <- (dict_get_without_user_id m1 "message_text"),
    <- (dict_get_without_user_id m2 "message_text"),
    <- (dict_get_without_user_id m1 "image_base64"),
    <- (dict_get_without_user_id m2 "image_base64") by discriminate.
  rewrite H. auto.
Qed.

End UserId.

(** C9 (as amended).  Two requests with the same header whose bodies are
    objects that differ only in the presence or value of [user_id], and
    that are both empty or both non-empty, run identically: same answer,
    same final state.  No answer of the handler has a [user_id] member.
    (The exception is the body [{"user_id": ...}] against the body [{}]:
    the first goes on to the provider, the second is answered 400.) *)
Theorem user_id_inert (w : world) (cfg : config) (secret : option string)
    (m1 m2 : list (string * json)) (s : state) :
  without_user_id m1 = without_user_id m2 ->
  (m1 = [] <-> m2 = []) ->
  analyze w cfg (Request secret (Some (JObj m1))) s
  = analyze w cfg (Request secret (Some (JObj m2))) s
  /\ forall r, fst (analyze w cfg (Request secret (Some (JObj m1))) s) = Ok r ->
               member "user_id" (resp_body r) = None.
Proof.
  intros Hsame Hempty. split.
  - destruct (fields_without_user_id m1 m2 Hsame) as (Hmode & Htext & Himage).
    unfold analyze. change (gate_rejects cfg (Request secret (Some (JObj m1))))
      with (gate_rejects cfg (Request secret (Some (JObj m2)))).
    destruct (gate_rejects cfg (Request secret (Some (JObj m2)))); [reflexivity|].
    unfold analyze_body, bind, lift, get_json. cbn [json_body].
    destruct m1 as [|kv1 m1'], m2 as [|kv2 m2'].
    + reflexivity.
    + destruct Hempty as [Hempty _]. specialize (Hempty eq_refl). discriminate.
    + destruct Hempty as [_ Hempty]. specialize (Hempty eq_refl). discriminate.
    + change (Py.truthy (JObj (kv1 :: m1'))) with true.
      change (Py.truthy (JObj (kv2 :: m2'))) with true.
      cbn [negb getattr_get]. unfold uuid4. cbv zeta.
      fold (mode_of (kv1 :: m1')) (text_of (kv1 :: m1')) (image_of (kv1 :: m1')).
      fold (mode_of (kv2 :: m2')) (text_of (kv2 :: m2')) (image_of (kv2 :: m2')).
      rewrite Hmode, Htext, Himage. reflexivity.
  - intros r Hr.
    pose proof (analyze_classified w cfg (Request secret (Some (JObj m1))) s) as Hc.
    rewrite Hr in Hc. inversion Hc; reflexivity.
Qed.

Lemma user_id_inert_witness :
  analyze Scenario.w Scenario.openai_only
    (Scenario.post None [("user_id", JStr "alice"); ("message_text", JStr "hello")])
    Scenario.s0
  = analyze Scenario.w Scenario.openai_only
      (Scenario.post None [("message_text", JStr "hello"); ("user_id", JNum 7)])
      Scenario.s0.
Proof.
  apply (user_id_inert Scenario.w Scenario.openai_only None
           [("user_id", JStr "alice"); ("message_text", JStr "hello")]
           [("message_text", JStr "hello"); ("user_id", JNum 7)] Scenario.s0).
  - reflexivity.
  - split; discriminate.
Defined.

(** C9 as the spec words it fails: the body [{"user_id": "u1"}] and the
    body [{}] differ only in the presence of [user_id], and get different
    answers (500 "No AI provider configured" against 400 "invalid json
    payload"). *)
Lemma user_id_alone_changes_answer :
  ~ spec_user_id_inert Scenario.w Scenario.no_keys None
      [("user_id", JStr "u1")] [] Scenario.s0.
Proof.
  intros H. specialize (H eq_refl). vm_compute in H. discriminate H.
Qed.

(** ** Temporary files *)

Section TempFiles.

Variable w : world.
Variable cfg : config.

Lemma cleanup_files p s :
  files (snd (cleanup w p s))
  = match p with
    | Some q => if str_truthy q then delete q (files s) else files s
    | None => files s
    end.
Proof.
  unfold cleanup, try_except, os_remove, ret.
  destruct p as [q|]; [|reflexivity].
  destruct (str_truthy q); [|reflexivity].
  destruct (files s !! q) eqn:E; simpl; [reflexivity|].
  symmetry. apply delete_id, E.
Qed.

(** However lines 133-149 end, the file of the normalizer is gone. *)
Lemma provider_block_removes user_text image_bytes mode p s :
  str_truthy p = true ->
  files (snd (provider_block w cfg user_text image_bytes mode (Some p) s)) !! p = None.
Proof.
  intros Hp. unfold provider_block, try_finally.
  match goal with |- context [try_except ?m ?h s] => destruct (try_except m h s) as [r s1] end.
  pose proof (cleanup_removes w p s1 Hp) as Hk.
  destruct (cleanup w (Some p) s1) as [[u|e] s2]; exact Hk.
Qed.


End TempFiles.

(** X8.  When the handler reaches the provider with a temporary image file, that
    file is not on disk when it returns, whatever the provider did. *)
Theorem normalizer_file_removed (w : world) (cfg : config) (req : request) (s : state)
    (m : list (string * json)) (user_text : json) (p : string) (image_bytes : option bytes)
    (s2 : state) :
  gate_rejects cfg req = false ->
  json_body req = Some (JObj m) ->
  m <> [] ->
  build_user_text w (mode_of m) (text_of m) = Ok user_text ->
  load_image w (image_of m) (after_uuid s) = (Ok (inr (Some p, image_bytes)), s2) ->
  files (snd (analyze w cfg req s)) !! p = None.
Proof.
  intros Hgate Hbody Hm Hut Hload.
  rewrite (analyze_reaches_provider w cfg req s m user_text (Some p) image_bytes s2)
    by assumption.
  pose proof (load_image_outcome w (image_of m) (after_uuid s)) as Hl.
  rewrite Hload in Hl. destruct image_bytes as [b|]; [|contradiction].
  destruct Hl as (_ & _ & _ & _ & Hp).
  pose proof (provider_block_removes w cfg user_text (Some b) (mode_of m) p s2 Hp) as Hrm.
  destruct (provider_block w cfg user_text (Some b) (mode_of m) (Some p) s2)
    as [[[resp|[d used]]|e] s3]; exact Hrm.
Qed.


(** C1, at the failing input.  With a Gemini credential and an image in
    the body, [call_gemini_api] writes the image bytes to a second
    temporary file for the upload and never deletes it ([finally: pass]):
    the handler answers 200 and that file is still on disk. *)
Theorem gemini_upload_file_left :
  fst (analyze Scenario.w Scenario.gemini_only
         (Scenario.post None [("image_base64", JStr "QUJD")]) Scenario.s0)
  = Ok (ok_reply (JStr "answer") "gemini")
  /\ map_to_list (files (snd (analyze Scenario.w Scenario.gemini_only
                               (Scenario.post None [("image_base64", JStr "QUJD")])
                               Scenario.s0)))
     = [("/tmp/tmpr2.png", [Byte.x41; Byte.x42; Byte.x43])]
  /\ ~ spec_no_temp_file_left Scenario.w Scenario.gemini_only
         (Scenario.post None [("image_base64", JStr "QUJD")]) Scenario.s0.
Proof.
  split; [vm_compute; reflexivity|]. split; [vm_compute; reflexivity|].
  intros H. specialize (H "/tmp/tmpr2.png" eq_refl). vm_compute in H. discriminate H.
Qed.

Section Exceptions.

Variable w : world.
Variable cfg : config.

(** X4.  The exceptions that leave the handler: the one of [get_json], the
    [AttributeError] of [data.get] on a body that is not an object, and the
    [AttributeError] of [mode.upper()] on a mode that is not a string.
    Nothing from the image or the provider gets out. *)
Lemma analyze_raises_iff req s e :
  fst (analyze w cfg req s) = Raise e
  <-> gate_rejects cfg req = false
      /\ (get_json req = Raise e
          \/ exists data,
               json_body req = Some data /\ Py.truthy data = true
               /\ (getattr_get data = Raise e
                   \/ exists m, data = JObj m
                                /\ build_user_text w (mode_of m) (text_of m) = Raise e)).
Proof.
  unfold analyze. destruct (gate_rejects cfg req) eqn:Hgate.
  { split; [discriminate | intros [? _]; discriminate]. }
  unfold analyze_body, bind, lift, get_json.
  destruct (json_body req) as [data|].
  2:{ simpl. split.
      - intros [= <-]. split; [reflexivity|]. left. reflexivity.
      - intros [_ [[= <-] | (data & Hd & _)]]; [reflexivity | discriminate]. }
  destruct (Py.truthy data) eqn:Ht; simpl.
  2:{ split; [discriminate|].
      intros [_ [H | (data' & [= <-] & Ht' & _)]]; [discriminate | congruence]. }
  destruct (getattr_get data) as [m|e0] eqn:Hget; simpl.
  2:{ split.
      - intros [= <-]. split; [reflexivity|]. right. exists data.
        split; [reflexivity|]. split; [exact Ht|]. left. exact Hget.
      - intros [_ [H | (data' & [= <-] & _ & [H | (m & -> & _)])]];
          [discriminate | congruence | discriminate]. }
  assert (data = JObj m) as -> by (destruct data; simpl in Hget; congruence).
  fold (after_uuid s) (mode_of m) (text_of m) (image_of m).
  destruct (build_user_text w (mode_of m) (text_of m)) as [user_text|e0] eqn:Hut.
  2:{ simpl. split.
      - intros [= <-]. split; [reflexivity|]. right. exists (JObj m).
        split; [reflexivity|]. split; [exact Ht|].
        right. exists m. split; [reflexivity | exact Hut].
      - intros [_ [H | (data' & [= <-] & _ & [H | (m' & [= <-] & H)])]];
          [discriminate | discriminate | congruence]. }
  split.
  - intros H. exfalso.
    pose proof (load_image_outcome w (image_of m) (after_uuid s)) as Hl.
    destruct (load_image w (image_of m) (after_uuid s)) as [[[resp|[p b]]|e1] s2];
      simpl in H; [discriminate | | contradiction].
    destruct (provider_block_spec w cfg user_text b (mode_of m) p s2) as (o & Ho & Hbo & _).
    destruct (provider_block w cfg user_text b (mode_of m) p s2) as [ro s3].
    simpl in Ho. subst ro. destruct Hbo; simpl in H; discriminate.
  - intros [_ [H | (data' & [= <-] & _ & [H | (m' & [= <-] & H)])]];
      [discriminate | discriminate | congruence].
Qed.

End Exceptions.

(** C4, at the failing inputs.  The body [{"mode": 5}] is valid JSON; the
    handler evaluates [mode.upper()] outside any [try] and the
    [AttributeError] leaves it.  The same happens at [data.get] for a body
    that is a non-empty array. *)
Theorem non_string_mode_raises :
  fst (analyze Scenario.w Scenario.gemini_only
         (Scenario.post None [("mode", JNum 5)]) Scenario.s0)
  = Raise (Exn "AttributeError" "'int' object has no attribute 'upper'")
  /\ fst (analyze Scenario.w Scenario.gemini_only
            (Request None (Some (JArr [JNum 1]))) Scenario.s0)
     = Raise (Exn "AttributeError" "'list' object has no attribute 'get'")
  /\ ~ spec_no_exception Scenario.w Scenario.gemini_only
         (Scenario.post None [("mode", JNum 5)]) Scenario.s0.
Proof.
  split; [vm_compute; reflexivity|]. split; [vm_compute; reflexivity|].
  intros [(r & Hr & _) | (r & Hr & _)]; vm_compute in Hr; discriminate Hr.
Qed.

(** ** The data-URL prefix *)

Section Marker.

Lemma save_binary w image_b64 s :
  save_base64_image_to_tempfile w image_b64 s
  = (do binary <- lift (image_binary image_b64) ;;
     do tmp <- NamedTemporaryFile w ".png" ;;
     run tmp_write tmp binary ;;
     ret tmp) s.
Proof.
  unfold save_base64_image_to_tempfile, image_binary. cbv zeta. unfold bind, lift, ret.
  destruct (contains_header_sep "base64," image_b64) as [[|]|e]; try reflexivity.
  destruct (split_second "base64," image_b64) as [rest|e]; reflexivity.
Qed.

Lemma prefix_drop sep s :
  String.prefix sep s = true -> s = sep ++ string_drop (String.length sep) s.
Proof.
  revert s. induction sep as [|a sep IH]; intros s H; [reflexivity|].
  destruct s as [|b s]; [discriminate|]. simpl in H.
  destruct (ascii_dec a b) as [->|]; [|discriminate].
  change (String b s = String b (sep ++ string_drop (String.length sep) s)).
  f_equal. apply IH, H.
Qed.

Lemma split_from_skip sep pre rest :
  Py.split_from sep (pre ++ rest) (String.length pre) = Py.split_from sep rest O.
Proof. induction pre as [|c pre IH]; [destruct rest; reflexivity | exact IH]. Qed.

Lemma split_from_no_marker sep s :
  Py.str_contains sep s = false -> Py.split_from sep s O = [s].
Proof.
  induction s as [|c s IH]; intros H; [reflexivity|].
  cbn [Py.str_contains] in H. apply orb_false_iff in H. destruct H as [Hp Hc].
  cbn [Py.split_from]. rewrite Hp, (IH Hc). reflexivity.
Qed.

(** The pieces of [s.split(sep)] from the second on are the pieces of the
    text after the first marker. *)
Lemma split_from_after sep s rest :
  sep <> EmptyString ->
  str_after sep s = Some rest ->
  exists pre, Py.split_from sep s O = pre :: Py.split_from sep rest O.
Proof.
  intros Hsep. induction s as [|c s IH]; intros H.
  - simpl in H. destruct sep; [congruence | discriminate].
  - cbn [str_after] in H. cbn [Py.split_from].
    destruct (String.prefix sep (String c s)) eqn:Hp.
    + injection H as <-. exists EmptyString. f_equal.
      destruct sep as [|a sep]; [congruence|].
      pose proof (prefix_drop _ _ Hp) as Hs. simpl in Hs. injection Hs as _ Hs.
      simpl. rewrite Hs at 1. apply split_from_skip.
    + destruct (IH H) as [pre Hpre]. rewrite Hpre. eexists. reflexivity.
Qed.

Lemma str_contains_after sep s :
  Py.str_contains sep s = true <-> exists rest, str_after sep s = Some rest.
Proof.
  induction s as [|c s IH]; cbn [Py.str_contains str_after].
  - destruct (String.prefix sep EmptyString).
    + split; eauto.
    + split; [discriminate | intros [rest H]; discriminate].
  - destruct (String.prefix sep (String c s)).
    + split; eauto.
    + exact IH.
Qed.

Lemma split_from_nonempty sep s skip : Py.split_from sep s skip <> [].
Proof.
  revert skip. induction s as [|c s IH]; intros skip; [discriminate|].
  cbn [Py.split_from]. destruct skip; [|apply IH].
  destruct (String.prefix sep (String c s)); [discriminate|].
  destruct (Py.split_from sep s 0); discriminate.
Qed.

End Marker.

(** X6.  Where the code agrees with C3: when the marker occurs once, the bytes
    are those of the text after it. *)
Theorem single_marker_decoded (image_b64 rest : string) :
  str_after "base64," image_b64 = Some rest ->
  Py.str_contains "base64," rest = false ->
  image_binary (JStr image_b64) = Base64.b64decode_str rest.
Proof.
  intros Hafter Hnone. unfold image_binary. cbn [contains_header_sep].
  assert (Hc : Py.str_contains "base64," image_b64 = true)
    by (apply str_contains_after; eauto).
  rewrite Hc. cbn [split_second]. unfold Py.str_split.
  destruct (split_from_after "base64," image_b64 rest ltac:(discriminate) Hafter) as [pre Hs].
  rewrite Hs, (split_from_no_marker _ _ Hnone). reflexivity.
Qed.

(** X7.  In general the normalizer decodes the text between the first marker
    and the next one, if there is one. *)
Theorem marker_segment_decoded (image_b64 rest : string) :
  str_after "base64," image_b64 = Some rest ->
  exists segment others,
    Py.str_split rest "base64," = segment :: others
    /\ image_binary (JStr image_b64) = Base64.b64decode_str segment.
Proof.
  intros Hafter. unfold image_binary. cbn [contains_header_sep].
  assert (Hc : Py.str_contains "base64," image_b64 = true)
    by (apply str_contains_after; eauto).
  rewrite Hc. cbn [split_second]. unfold Py.str_split.
  destruct (split_from_after "base64," image_b64 rest ltac:(discriminate) Hafter) as [pre Hs].
  rewrite Hs.
  destruct (Py.split_from "base64," rest 0) as [|segment others] eqn:E.
  - exfalso. exact (split_from_nonempty _ _ _ E).
  - exists segment, others. split; reflexivity.
Qed.

(** C3, at the failing input.  The image text
    [data:image/png;base64,QUJDbase64,QQ==] contains the marker; the text
    after it, [QUJDbase64,QQ==], decodes to nine bytes, but
    [split(header_sep)[1]] keeps only [QUJD] and the normalizer obtains the
    three bytes [ABC]. *)
Theorem second_marker_cuts_image :
  str_after "base64," "data:image/png;base64,QUJDbase64,QQ==" = Some "QUJDbase64,QQ=="
  /\ Base64.b64decode_str "QUJDbase64,QQ=="
     = Ok [Byte.x41; Byte.x42; Byte.x43; Byte.x6d; Byte.xab; Byte.x1e;
           Byte.xeb; Byte.x84; Byte.x10]
  /\ image_binary (JStr "data:image/png;base64,QUJDbase64,QQ==")
     = Ok [Byte.x41; Byte.x42; Byte.x43]
  /\ calls (snd (analyze Scenario.w Scenario.gemini_only
                   (Scenario.post None
                      [("image_base64", JStr "data:image/png;base64,QUJDbase64,QQ==")])
                   Scenario.s0))
     = [CallGemini (JStr EmptyString) (Some [Byte.x41; Byte.x42; Byte.x43]) (JStr "auto")]
  /\ ~ spec_marker_stripped "data:image/png;base64,QUJDbase64,QQ==".
Proof.
  split; [vm_compute; reflexivity|]. split; [vm_compute; reflexivity|].
  split; [vm_compute; reflexivity|]. split; [vm_compute; reflexivity|].
  intros H. specialize (H "QUJDbase64,QQ==" eq_refl). vm_compute in H. discriminate H.
Qed.

(** * Further properties of the code *)

(** ** The log is bookkeeping *)

Section LogBlind.

Lemma same_disk_refl s : same_disk s s.
Proof. split; reflexivity. Qed.

Lemma log_blind_ret {A} (a : A) : log_blind (ret a).
Proof. intros s s' H. split; [reflexivity | exact H]. Qed.

Lemma log_blind_raise {A} (e : exn) : log_blind (@raise A e).
Proof. intros s s' H. split; [reflexivity | exact H]. Qed.

Lemma log_blind_lift {A} (r : result A) : log_blind (lift r).
Proof. intros s s' H. split; [reflexivity | exact H]. Qed.

Lemma log_blind_log c c' s s' :
  same_disk s s' -> same_disk (snd (log c s)) (snd (log c' s')).
Proof. intros H. exact H. Qed.

Lemma log_blind_bind {A B} (m : M A) (k : A -> M B) :
  log_blind m -> (forall a, log_blind (k a)) -> log_blind (bind m k).
Proof.
  intros Hm Hk s s' H. unfold bind. destruct (Hm s s' H) as [Hfst Hsnd].
  destruct (m s) as [[a|e] s1], (m s') as [[a'|e'] s1']; simpl in *; try discriminate.
  - injection Hfst as <-. apply Hk, Hsnd.
  - injection Hfst as <-. split; [reflexivity | assumption].
Qed.

Lemma log_blind_try_except {A} (m : M A) (h : exn -> M A) :
  log_blind m -> (forall e, log_blind (h e)) -> log_blind (try_except m h).
Proof.
  intros Hm Hh s s' H. unfold try_except. destruct (Hm s s' H) as [Hfst Hsnd].
  destruct (m s) as [[a|e] s1], (m s') as [[a'|e'] s1']; simpl in *; try discriminate.
  - split; assumption.
  - injection Hfst as <-. apply Hh, Hsnd.
Qed.

Lemma log_blind_try_finally {A} (m : M A) (f : M unit) :
  log_blind m -> log_blind f -> log_blind (try_finally m f).
Proof.
  intros Hm Hf s s' H. unfold try_finally. destruct (Hm s s' H) as [Hfst Hsnd].
  destruct (m s) as [r s1], (m s') as [r' s1']; simpl in *. subst r'.
  destruct (Hf s1 s1' Hsnd) as [Hf1 Hf2].
  destruct (f s1) as [[u|e] s2], (f s1') as [[u'|e'] s2']; simpl in *; try discriminate.
  - split; [reflexivity | assumption].
  - injection Hf1 as <-. split; [reflexivity | assumption].
Qed.

Variable w : world.

Lemma mkstemp_loop_log_blind suffix n : log_blind (mkstemp_loop w suffix n).
Proof.
  induction n as [|n IH]; intros s s' [Hf He]; simpl.
  - split; [reflexivity | split; assumption].
  - rewrite <- Hf, <- He. destruct (files s !! _).
    + apply IH. split; simpl; congruence.
    + split; [reflexivity | split; simpl; congruence].
Qed.

Lemma NamedTemporaryFile_log_blind suffix : log_blind (NamedTemporaryFile w suffix).
Proof. apply mkstemp_loop_log_blind. Qed.

Lemma tmp_write_log_blind name data : log_blind (tmp_write name data).
Proof. intros s s' [Hf He]. split; [reflexivity | split; simpl; congruence]. Qed.

Lemma read_file_log_blind path : log_blind (read_file w path).
Proof.
  intros s s' [Hf He]. unfold read_file. rewrite <- Hf.
  destruct (files s !! path); (split; [reflexivity | split; assumption]).
Qed.

Lemma os_remove_log_blind path : log_blind (os_remove w path).
Proof.
  intros s s' [Hf He]. unfold os_remove. rewrite <- Hf.
  destruct (files s !! path); (split; [reflexivity | split; simpl; congruence]).
Qed.

Lemma uuid4_log_blind : log_blind (uuid4 w).
Proof.
  intros s s' [Hf He]. unfold uuid4. rewrite He.
  split; [reflexivity | split; simpl; congruence].
Qed.

Lemma client_files_upload_log_blind path : log_blind (client_files_upload w path).
Proof.
  intros s s' [Hf He]. unfold client_files_upload. rewrite Hf.
  split; [reflexivity | split; assumption].
Qed.

Lemma log_log_blind c : log_blind (log c).
Proof. intros s s' H. split; [reflexivity | exact H]. Qed.

End LogBlind.

Create HintDb blind.
#[export] Hint Resolve log_blind_ret log_blind_raise log_blind_lift
  NamedTemporaryFile_log_blind tmp_write_log_blind read_file_log_blind os_remove_log_blind
  uuid4_log_blind client_files_upload_log_blind log_log_blind : blind.

Ltac blind_step :=
  first
    [ solve [auto with blind]
    | apply log_blind_bind; [ | intros ]
    | apply log_blind_try_except; [ | intros ]
    | apply log_blind_try_finally
    | match goal with
      | |- log_blind (if ?b then _ else _) => destruct b
      | |- log_blind (match ?x with _ => _ end) => destruct x
      end ].
Ltac blind_auto := cbv zeta; repeat blind_step.

Section LogBlindCode.

Variable w : world.
Variable cfg : config.

Lemma save_log_blind img : log_blind (save_base64_image_to_tempfile w img).
Proof. unfold save_base64_image_to_tempfile. blind_auto. Qed.

Lemma load_image_log_blind img : log_blind (load_image w img).
Proof.
  unfold load_image. cbv zeta. destruct (Py.truthy img); [|blind_auto].
  apply log_blind_try_except; [|intros; blind_auto].
  apply log_blind_bind; [apply save_log_blind | intros; blind_auto].
Qed.

Lemma call_gemini_api_log_blind t i m : log_blind (call_gemini_api w cfg t i m).
Proof. unfold call_gemini_api. blind_auto. Qed.

Lemma call_openai_chat_log_blind sp t : log_blind (call_openai_chat w cfg sp t).
Proof. unfold call_openai_chat, call_openai_chat_with. blind_auto. Qed.

Lemma cleanup_log_blind p : log_blind (cleanup w p).
Proof. unfold cleanup. blind_auto. Qed.

Lemma provider_block_log_blind ut ib mode p : log_blind (provider_block w cfg ut ib mode p).
Proof.
  unfold provider_block.
  apply log_blind_try_finally; [|apply cleanup_log_blind].
  apply log_blind_try_except; [|intros; blind_auto].
  destruct (opt_truthy (GEMINI_API_KEY cfg)).
  - apply log_blind_bind; [apply call_gemini_api_log_blind | intros; blind_auto].
  - destruct (opt_truthy (OPENAI_API_KEY cfg)); [|blind_auto].
    apply log_blind_bind; [apply call_openai_chat_log_blind | intros; blind_auto].
Qed.

End LogBlindCode.

#[export] Hint Resolve save_log_blind load_image_log_blind call_gemini_api_log_blind
  call_openai_chat_log_blind cleanup_log_blind provider_block_log_blind : blind.

(** The answer of the handler, the disk and the random position after it
    do not depend on the log: the log only records. *)
Lemma analyze_log_blind w cfg req : log_blind (analyze w cfg req).
Proof.
  unfold analyze. destruct (gate_rejects cfg req); [blind_auto|].
  unfold analyze_body. blind_auto.
Qed.

(** ** The Gemini call, step by step *)

Section GeminiCall.

Variable w : world.
Variable cfg : config.

Lemma gemini_tail contents s :
  fst ((do config <-
          try_except (do c <- lift (make_config w (SYSTEM_PROMPT cfg)) ;; ret (Some c))
                     (fun _ => ret None) ;;
        let model_name :=
          if str_truthy (DEFAULT_MODEL cfg) then DEFAULT_MODEL cfg else "gemini-2.5-pro" in
        do response <-
          (match config with
           | Some c => lift (generate_content w model_name contents (Some c))
           | None => lift (generate_content w model_name contents None)
           end) ;;
        do text <-
          try_except (lift (response_text response))
            (fun _ =>
               try_except (do t <- lift (response_str response) ;; ret (JStr t))
                 (fun _ => ret (JStr "No textual response from Gemini."))) ;;
        ret [("reply_text", PJson text); ("raw", PResponse response);
             ("reply_type", PJson (JStr "analysis"))]) s)
  = gemini_generate w cfg contents.
Proof.
  unfold gemini_generate, gemini_model_name, gemini_text. cbv zeta.
  unfold bind, try_except, lift, ret.
  destruct (make_config w (SYSTEM_PROMPT cfg)) as [c|e]; simpl.
  - destruct (generate_content w _ contents (Some c)) as [r|e]; [|reflexivity]. simpl.
    destruct (response_text r) as [t|e]; [reflexivity|].
    destruct (response_str r) as [t|e']; reflexivity.
  - destruct (generate_content w _ contents None) as [r|e']; [|reflexivity]. simpl.
    destruct (response_text r) as [t|e1]; [reflexivity|].
    destruct (response_str r) as [t|e2]; reflexivity.
Qed.

(** Without image bytes: the contents are the text, if there is any. *)
Lemma call_gemini_api_text_only payload image mode s :
  gemini_ready w cfg ->
  image = None \/ image = Some [] ->
  fst (call_gemini_api w cfg payload image mode s)
  = match append_text w payload [] with
    | Ok contents => gemini_generate w cfg contents
    | Raise e => Raise e
    end.
Proof.
  intros (Hkey & Hinst & Hclient) Himage.
  unfold call_gemini_api. rewrite bind_log, Hkey, Hinst. cbn [negb]. cbv zeta.
  unfold bind at 1. unfold lift at 1. rewrite Hclient.
  unfold bind at 1.
  assert (Hc : forall s0,
             (match image with
              | Some (b :: bs) =>
                  do tmp <- NamedTemporaryFile w ".png" ;;
                  run tmp_write tmp (b :: bs) ;;
                  do uploaded_file <- try_finally (client_files_upload w tmp) (ret tt) ;;
                  ret ([] ++ [CFile uploaded_file])%list
              | _ => ret []
              end) s0 = (Ok [], s0)).
  { intros s0. destruct Himage as [-> | ->]; reflexivity. }
  rewrite Hc. unfold bind at 1. unfold lift at 1.
  destruct (append_text w payload []) as [contents|e]; [|reflexivity].
  apply gemini_tail.
Qed.

(** With image bytes: a temporary file, the upload, then the text. *)
Lemma call_gemini_api_with_image payload b bs mode s tmp ref :
  gemini_ready w cfg ->
  fst (NamedTemporaryFile w ".png" s) = Ok tmp ->
  files_upload w tmp (Some (b :: bs)) = Ok ref ->
  fst (call_gemini_api w cfg payload (Some (b :: bs)) mode s)
  = match append_text w payload [CFile ref] with
    | Ok contents => gemini_generate w cfg contents
    | Raise e => Raise e
    end.
Proof.
  intros (Hkey & Hinst & Hclient) Htmp Hupload.
  unfold call_gemini_api. rewrite bind_log, Hkey, Hinst. cbn [negb]. cbv zeta.
  unfold bind at 1. unfold lift at 1. rewrite Hclient.
  unfold bind at 1. unfold bind at 1.
  match goal with |- context [NamedTemporaryFile w ".png" ?s1] =>
    destruct (NamedTemporaryFile_log_blind w ".png" s s1 ltac:(split; reflexivity)) as [Hfst _];
    rewrite Htmp in Hfst;
    destruct (NamedTemporaryFile w ".png" s1) as [r s2]
  end.
  simpl in Hfst. subst r.
  unfold bind at 1. unfold tmp_write at 1.
  unfold bind at 1. unfold try_finally, client_files_upload, ret at 1. cbn [files].
  rewrite lookup_insert_eq, Hupload. cbn [app].
  unfold ret at 1. unfold bind at 1. unfold lift at 1.
  destruct (append_text w payload [CFile ref]) as [contents|e]; [|reflexivity].
  apply gemini_tail.
Qed.

End GeminiCall.

(** ** The handler as a whole *)

(** X1.  Every answer of the handler is one of two envelopes: status 200 with
    ["status": "ok"] and the provider that served it, or status 400, 401 or
    500 with ["status": "error"], a message, no reply text and no
    provider. *)
Theorem answer_status_and_envelope (w : world) (cfg : config) (req : request) (s : state)
    (r : response) :
  fst (analyze w cfg req s) = Ok r ->
  (resp_status r = 200
   /\ member "status" (resp_body r) = Some (JStr "ok")
   /\ (used_provider r = Some (JStr "gemini") \/ used_provider r = Some (JStr "openai"))
   /\ member "message" (resp_body r) = None)
  \/ ((resp_status r = 400 \/ resp_status r = 401 \/ resp_status r = 500)
      /\ member "status" (resp_body r) = Some (JStr "error")
      /\ (exists msg, member "message" (resp_body r) = Some (JStr msg))
      /\ member "reply_text" (resp_body r) = None
      /\ used_provider r = None).
Proof.
  intros Hr. pose proof (analyze_classified w cfg req s) as Hc. rewrite Hr in Hc.
  inversion Hc; subst;
    first [ left; repeat split; auto; fail
          | right; repeat split; eauto; fail ].
Qed.

Lemma answer_status_and_envelope_witness :
  (resp_status no_provider = 200
   /\ member "status" (resp_body no_provider) = Some (JStr "ok")
   /\ (used_provider no_provider = Some (JStr "gemini")
       \/ used_provider no_provider = Some (JStr "openai"))
   /\ member "message" (resp_body no_provider) = None)
  \/ ((resp_status no_provider = 400 \/ resp_status no_provider = 401
       \/ resp_status no_provider = 500)
      /\ member "status" (resp_body no_provider) = Some (JStr "error")
      /\ (exists msg, member "message" (resp_body no_provider) = Some (JStr msg))
      /\ member "reply_text" (resp_body no_provider) = None
      /\ used_provider no_provider = None).
Proof.
  apply (answer_status_and_envelope Scenario.w Scenario.no_keys
           (Scenario.post None [("message_text", JStr "hello")]) Scenario.s0).
  vm_compute. reflexivity.
Defined.

(** X2.  The handler calls a provider function at most once per request: there
    is no retry and no second provider after a failure. *)
Theorem at_most_one_provider_call (w : world) (cfg : config) (req : request) (s : state) :
  exists l,
    calls (snd (analyze w cfg req s)) = (calls s ++ l)%list /\ (List.length l <= 1)%nat.
Proof.
  destruct (analyze_calls w cfg req s) as [Hsame | (m & ut & ib & _ & _ & Hc)].
  - exists []. rewrite app_nil_r. split; [exact Hsame | simpl; lia].
  - eexists. split; [exact Hc|]. unfold expected_calls.
    destruct (opt_truthy (GEMINI_API_KEY cfg)); [simpl; lia|].
    destruct (opt_truthy (OPENAI_API_KEY cfg)); simpl; lia.
Qed.



(** X5.  The image bytes handed on by the normalizer are the decoded bytes,
    read back from a file that was not there before and now holds them. *)
Theorem image_bytes_roundtrip (w : world) (image_b64 : json) (s s1 : state)
    (path : string) (image_bytes : bytes) :
  load_image w image_b64 s = (Ok (inr (Some path, Some image_bytes)), s1) ->
  image_binary image_b64 = Ok image_bytes
  /\ files s !! path = None
  /\ files s1 !! path = Some image_bytes.
Proof.
  unfold load_image. cbv zeta. destruct (Py.truthy image_b64); [|discriminate].
  unfold try_except. unfold bind at 1. rewrite save_binary.
  unfold bind at 1. unfold lift at 1.
  destruct (image_binary image_b64) as [binary|e]; [|discriminate].
  unfold bind at 1. pose proof (NamedTemporaryFile_spec w ".png" s) as HT.
  destruct (NamedTemporaryFile w ".png" s) as [[tmp|e] s2]; [|discriminate].
  destruct HT as (Hfresh & Hfiles & _ & _).
  unfold bind, tmp_write, ret, read_file. cbn [files]. rewrite lookup_insert_eq.
  intros [= -> -> <-]. cbn [files]. rewrite lookup_insert_eq. auto.
Qed.

Lemma image_bytes_roundtrip_witness :
  image_binary (JStr "data:image/png;base64,QUJD") = Ok [Byte.x41; Byte.x42; Byte.x43]
  /\ files Scenario.s0 !! "/tmp/tmpr0.png" = None
  /\ files (snd (load_image Scenario.w (JStr "data:image/png;base64,QUJD") Scenario.s0))
       !! "/tmp/tmpr0.png" = Some [Byte.x41; Byte.x42; Byte.x43].
Proof.
  apply (image_bytes_roundtrip Scenario.w (JStr "data:image/png;base64,QUJD") Scenario.s0).
  vm_compute. reflexivity.
Defined.

(** ** Provider failures *)

Section ProviderFailures.

Variable w : world.
Variable cfg : config.

Lemma provider_block_gemini user_text image_bytes mode p s :
  opt_truthy (GEMINI_API_KEY cfg) = true ->
  fst (provider_block w cfg user_text image_bytes mode p s)
  = match fst (call_gemini_api w cfg user_text image_bytes mode s) with
    | Ok ai_resp => Ok (inr (ai_resp, "gemini"))
    | Raise e => Ok (inl (provider_error e))
    end.
Proof.
  intros Hg. unfold provider_block, try_finally, try_except, bind, ret. rewrite Hg.
  destruct (call_gemini_api w cfg user_text image_bytes mode s) as [[d|e] s1]; simpl.
  - pose proof (cleanup_ok w p s1) as Hk.
    destruct (cleanup w p s1) as [[[]|e] s2]; simpl in *; [reflexivity | discriminate].
  - pose proof (cleanup_ok w p s1) as Hk.
    destruct (cleanup w p s1) as [[[]|e'] s2]; simpl in *; [reflexivity | discriminate].
Qed.

End ProviderFailures.

(** X11.  Whatever exception the selected provider function raises (SDK missing,
    upload or generation failure, time-out, HTTP error, a body that is not
    JSON), lines 133-149 catch it and return the 500 envelope
    "AI provider error" with the text of the exception; they never raise
    themselves. *)
Theorem provider_exception_answered_500 (w : world) (cfg : config)
    (user_text : json) (image_bytes : option bytes) (mode : json) (p : option string)
    (s : state) (e : exn) :
  (opt_truthy (GEMINI_API_KEY cfg) = true
   /\ fst (call_gemini_api w cfg user_text image_bytes mode s) = Raise e)
  \/ (opt_truthy (GEMINI_API_KEY cfg) = false
      /\ opt_truthy (OPENAI_API_KEY cfg) = true
      /\ fst (call_openai_chat w cfg (SYSTEM_PROMPT cfg) user_text s) = Raise e) ->
  fst (provider_block w cfg user_text image_bytes mode p s) = Ok (inl (provider_error e))
  /\ resp_status (provider_error e) = 500
  /\ member "error" (resp_body (provider_error e)) = Some (JStr (exn_str e)).
Proof.
  intros [[Hg Hraise] | (Hg & Ho & Hraise)]; (split; [|split; reflexivity]).
  - rewrite (provider_block_gemini w cfg) by exact Hg. rewrite Hraise. reflexivity.
  - rewrite (provider_block_openai w cfg) by assumption. rewrite Hraise. reflexivity.
Qed.

Lemma provider_exception_answered_500_witness :
  fst (provider_block (Cases.gemini_world (fun _ _ _ => Raise Cases.overloaded)
                         (make_config Scenario.w))
         Scenario.gemini_only (JStr "hello") None (JStr "auto") None Scenario.s0)
  = Ok (inl (provider_error Cases.overloaded)).
Proof.
  apply (provider_exception_answered_500
           (Cases.gemini_world (fun _ _ _ => Raise Cases.overloaded) (make_config Scenario.w))
           Scenario.gemini_only (JStr "hello") None (JStr "auto") None Scenario.s0
           Cases.overloaded).
  left. split; [reflexivity | vm_compute; reflexivity].
Defined.

(** X12.  On the OpenAI path the [json.dumps] fallback covers a body of another
    shape only: when the POST itself raises (time-out, connection), or the
    status is not 4xx or 5xx and the body is not JSON so that [resp.json()]
    raises, the answer is the 500 envelope with that exception. *)
Theorem openai_failure_is_provider_error (w : world) (cfg : config)
    (user_text : json) (image_bytes : option bytes) (mode : json) (p : option string)
    (s : state) (e : exn) :
  opt_truthy (GEMINI_API_KEY cfg) = false ->
  opt_truthy (OPENAI_API_KEY cfg) = true ->
  (forall url headers body timeout, requests_post w url headers body timeout = Raise e)
  \/ (exists resp,
        (forall url headers body timeout, requests_post w url headers body timeout = Ok resp)
        /\ ~ (400 <= status_code resp < 600)
        /\ resp_json resp = Raise e) ->
  fst (provider_block w cfg user_text image_bytes mode p s) = Ok (inl (provider_error e)).
Proof.
  intros Hg Ho H. rewrite (provider_block_openai w cfg) by assumption.
  destruct H as [Hpost | (resp & Hpost & Hst & Hjson)].
  - unfold call_openai_chat, call_openai_chat_with. rewrite bind_log, Ho. cbn [negb].
    cbv zeta. unfold bind, lift. rewrite Hpost. reflexivity.
  - rewrite (call_openai_chat_outcome w cfg _ _ _ resp) by assumption.
    rewrite (raise_for_status_pass openai_url resp Hst), Hjson. reflexivity.
Qed.

Lemma openai_failure_is_provider_error_witness :
  fst (provider_block (Cases.openai_world (Raise Cases.timed_out)) Scenario.openai_only
         (JStr "hello") None (JStr "auto") None Scenario.s0)
  = Ok (inl (provider_error Cases.timed_out))
  /\ fst (provider_block
            (Cases.openai_world (Ok (HttpResponse 200 "OK" (Raise Cases.not_json))))
            Scenario.openai_only (JStr "hello") None (JStr "auto") None Scenario.s0)
     = Ok (inl (provider_error Cases.not_json)).
Proof.
  split.
  - apply (openai_failure_is_provider_error (Cases.openai_world (Raise Cases.timed_out))
             Scenario.openai_only (JStr "hello") None (JStr "auto") None Scenario.s0
             Cases.timed_out eq_refl eq_refl).
    left. reflexivity.
  - apply (openai_failure_is_provider_error
             (Cases.openai_world (Ok (HttpResponse 200 "OK" (Raise Cases.not_json))))
             Scenario.openai_only (JStr "hello") None (JStr "auto") None Scenario.s0
             Cases.not_json eq_refl eq_refl).
    right. exists (HttpResponse 200 "OK" (Raise Cases.not_json)).
    split; [reflexivity|]. split; [simpl; lia | reflexivity].
Defined.

(** ** The Gemini path *)

Section GeminiFacts.

Variable w : world.

(** Line 58, [if payload_text and payload_text.strip()], on a value that is
    falsy or a string that [str.strip] empties. *)
Lemma append_text_no_text payload contents :
  Py.truthy payload = false
  \/ (exists t, payload = JStr t /\ str_strip (unicode w) t = EmptyString) ->
  append_text w payload contents = Ok contents.
Proof.
  unfold append_text. intros [Hfalsy | (t & -> & Hblank)].
  - rewrite Hfalsy. reflexivity.
  - destruct (Py.truthy (JStr t)); [|reflexivity].
    rewrite Hblank. reflexivity.
Qed.

(** Line 58 on a non-empty string that [str.strip] does not empty. *)
Lemma append_text_some_text t contents :
  t <> EmptyString ->
  str_strip (unicode w) t <> EmptyString ->
  append_text w (JStr t) contents = Ok (contents ++ [CText t])%list.
Proof.
  intros Ht Hstrip. unfold append_text.
  destruct t as [|c t]; [contradiction|]. cbn [Py.truthy str_truthy].
  destruct (str_strip (unicode w) (String c t)); [contradiction | reflexivity].
Qed.

End GeminiFacts.

(** X14.  Once Gemini has produced a response object the call does not fail: the
    reply text is [response.text]; if reading it raises, [str(response)];
    if that raises too, the fixed placeholder. *)
Theorem gemini_text_fallback (w : world) (cfg : config) (payload_text mode : json)
    (s : state) (r : gemini_response) :
  gemini_ready w cfg ->
  (forall model contents config, generate_content w model contents config = Ok r) ->
  Py.truthy payload_text = false \/ (exists t, payload_text = JStr t) ->
  exists text,
    fst (call_gemini_api w cfg payload_text None mode s)
    = Ok (provider_reply text (PResponse r))
    /\ match response_text r, response_str r with
       | Ok t, _ => text = t
       | Raise _, Ok t => text = JStr t
       | Raise _, Raise _ => text = JStr "No textual response from Gemini."
       end.
Proof.
  intros Hready Hgen Hpayload.
  rewrite (call_gemini_api_text_only w cfg) by (auto || exact Hready).
  assert (Happ : exists contents, append_text w payload_text [] = Ok contents).
  { unfold append_text. destruct Hpayload as [Hf | [t ->]].
    - rewrite Hf. eauto.
    - destruct (Py.truthy (JStr t)); [|eauto].
      destruct (str_truthy (str_strip (unicode w) t)); eauto. }
  destruct Happ as [contents ->]. unfold gemini_generate. cbv zeta. rewrite Hgen.
  exists (gemini_text r). split; [reflexivity|]. unfold gemini_text.
  destruct (response_text r); [reflexivity|]. destruct (response_str r); reflexivity.
Qed.

Lemma gemini_text_fallback_witness :
  exists text,
    fst (call_gemini_api (Cases.gemini_world (fun _ _ _ => Ok Cases.no_text)
                            (make_config Scenario.w))
           Scenario.gemini_only (JStr "hello") None (JStr "auto") Scenario.s0)
    = Ok (provider_reply text (PResponse Cases.no_text))
    /\ text = JStr "candidates=[]".
Proof.
  apply (gemini_text_fallback
           (Cases.gemini_world (fun _ _ _ => Ok Cases.no_text) (make_config Scenario.w))
           Scenario.gemini_only (JStr "hello") (JStr "auto") Scenario.s0 Cases.no_text).
  - repeat split.
  - reflexivity.
  - right. exists "hello". reflexivity.
Defined.

(** X15.  When the configuration object cannot be built the call is not aborted:
    the generation is asked for without configuration.  Stated for a call
    without image whose text passes the test of line 58: it is not empty
    and [str.strip] does not empty it. *)
Theorem gemini_config_failure_tolerated (w : world) (cfg : config) (t : string)
    (mode : json) (s : state) (e : exn) (r : gemini_response) :
  gemini_ready w cfg ->
  t <> EmptyString ->
  str_strip (unicode w) t <> EmptyString ->
  make_config w (SYSTEM_PROMPT cfg) = Raise e ->
  generate_content w (gemini_model_name cfg) [CText t] None = Ok r ->
  fst (call_gemini_api w cfg (JStr t) None mode s)
  = Ok (provider_reply (gemini_text r) (PResponse r)).
Proof.
  intros Hready Ht Hstrip Hconfig Hgen.
  rewrite (call_gemini_api_text_only w cfg) by (auto || exact Hready).
  rewrite (append_text_some_text w t []) by assumption.
  unfold gemini_generate. cbv zeta. rewrite Hconfig. cbn [app]. rewrite Hgen. reflexivity.
Qed.

Lemma gemini_config_failure_tolerated_witness :
  fst (call_gemini_api
         (Cases.gemini_world (generate_content Scenario.w)
            (fun _ => Raise (Exn "ValidationError" "system_instruction")))
         Scenario.gemini_only (JStr "hello") None (JStr "auto") Scenario.s0)
  = Ok (provider_reply (JStr "answer")
          (PResponse (GeminiResponse (Ok (JStr "answer")) (Ok "response")))).
Proof.
  apply (gemini_config_failure_tolerated
           (Cases.gemini_world (generate_content Scenario.w)
              (fun _ => Raise (Exn "ValidationError" "system_instruction")))
           Scenario.gemini_only "hello" (JStr "auto") Scenario.s0
           (Exn "ValidationError" "system_instruction")
           (GeminiResponse (Ok (JStr "answer")) (Ok "response")));
    first [ reflexivity | vm_compute; discriminate | repeat split ].
Defined.

(** X16.  With an image and a text that passes the test of line 58 (not empty,
    and not emptied by [str.strip]), Gemini is asked with the persona as
    system instruction and with two content items: first the reference of
    the uploaded file (the upload is given the new temporary file, which
    holds the image bytes), then the text. *)
Theorem gemini_image_before_text (w : world) (cfg : config) (t : string)
    (b : byte) (bs : bytes) (mode : json) (s : state) (tmp ref : string)
    (c : gen_config) (r : gemini_response) :
  gemini_ready w cfg ->
  t <> EmptyString ->
  str_strip (unicode w) t <> EmptyString ->
  fst (NamedTemporaryFile w ".png" s) = Ok tmp ->
  files_upload w tmp (Some (b :: bs)) = Ok ref ->
  make_config w (SYSTEM_PROMPT cfg) = Ok c ->
  generate_content w (gemini_model_name cfg) [CFile ref; CText t] (Some c) = Ok r ->
  fst (call_gemini_api w cfg (JStr t) (Some (b :: bs)) mode s)
  = Ok (provider_reply (gemini_text r) (PResponse r)).
Proof.
  intros Hready Ht Hstrip Htmp Hupload Hconfig Hgen.
  rewrite (call_gemini_api_with_image w cfg (JStr t) b bs mode s tmp ref) by assumption.
  rewrite (append_text_some_text w t [CFile ref]) by assumption.
  unfold gemini_generate. cbv zeta. rewrite Hconfig. cbn [app]. rewrite Hgen. reflexivity.
Qed.

Lemma gemini_image_before_text_witness :
  fst (call_gemini_api Scenario.w Scenario.gemini_only (JStr "hello")
         (Some [Byte.x41; Byte.x42]) (JStr "auto") Scenario.s0)
  = Ok (provider_reply (JStr "answer")
          (PResponse (GeminiResponse (Ok (JStr "answer")) (Ok "response")))).
Proof.
  apply (gemini_image_before_text Scenario.w Scenario.gemini_only "hello"
           Byte.x41 [Byte.x42] (JStr "auto") Scenario.s0
           "/tmp/tmpr0.png" "files//tmp/tmpr0.png" (GenerateContentConfig "persona")
           (GeminiResponse (Ok (JStr "answer")) (Ok "response")));
    first [ repeat split; fail | vm_compute; discriminate | vm_compute; reflexivity ].
Defined.

(** X17.  A text that fails the test of line 58 is not sent: the call gives
    what it gives for the empty string.  These are the strings that
    [str.strip] empties (the empty string, and the strings made of what the
    interpreter counts as white space) and the falsy values of another type
    ([null], [0], [false], an empty array or object). *)
Theorem gemini_blank_text_as_empty (w : world) (cfg : config) (payload_text mode : json)
    (s : state) :
  gemini_ready w cfg ->
  Py.truthy payload_text = false
  \/ (exists t, payload_text = JStr t /\ str_strip (unicode w) t = EmptyString) ->
  fst (call_gemini_api w cfg payload_text None mode s)
  = fst (call_gemini_api w cfg (JStr EmptyString) None mode s).
Proof.
  intros Hready Hblank.
  rewrite !(call_gemini_api_text_only w cfg) by (auto || exact Hready).
  rewrite (append_text_no_text w payload_text []) by exact Hblank.
  reflexivity.
Qed.

Lemma gemini_blank_text_as_empty_witness :
  fst (call_gemini_api Scenario.w Scenario.gemini_only (JStr "  ") None (JStr "auto")
         Scenario.s0)
  = fst (call_gemini_api Scenario.w Scenario.gemini_only (JStr EmptyString) None
           (JStr "auto") Scenario.s0).
Proof.
  apply (gemini_blank_text_as_empty Scenario.w Scenario.gemini_only (JStr "  ")
           (JStr "auto") Scenario.s0).
  - repeat split.
  - right. exists "  ". split; reflexivity.
Defined.

(** X18.  On the Gemini path a [message_text] that is truthy and not a string
    (a number, [true], a non-empty array or object) reaches
    [payload_text.strip()] inside the [try] block: the handler answers the
    500 envelope with the [AttributeError], it does not crash. *)
Theorem gemini_non_string_text_answered_500 (w : world) (cfg : config) (req : request)
    (s : state) (m : list (string * json)) :
  gemini_ready w cfg ->
  gate_rejects cfg req = false ->
  json_body req = Some (JObj m) ->
  mode_of m = JStr "auto" ->
  Py.truthy (image_of m) = false ->
  Py.truthy (text_of m) = true ->
  (forall t, text_of m <> JStr t) ->
  fst (analyze w cfg req s)
  = Ok (provider_error (Py.AttributeError (text_of m) "strip")).
Proof.
  intros Hready Hgate Hbody Hmode Himage Htruthy Hnot.
  assert (Hm : m <> []).
  { intros ->. unfold text_of in Htruthy. discriminate. }
  rewrite (analyze_through_block w cfg req s m (text_of m) None None (after_uuid s));
    try assumption.
  - rewrite (provider_block_gemini w cfg) by apply Hready.
    rewrite (call_gemini_api_text_only w cfg) by (auto || exact Hready).
    unfold append_text. rewrite Htruthy.
    destruct (text_of m) as [| | | |t| |]; try reflexivity.
    exfalso. apply (Hnot t). reflexivity.
  - rewrite Hmode. reflexivity.
  - unfold load_image. cbv zeta. rewrite Himage. reflexivity.
Qed.

Lemma gemini_non_string_text_answered_500_witness :
  fst (analyze Scenario.w Scenario.gemini_only
         (Scenario.post None [("message_text", JNum 5)]) Scenario.s0)
  = Ok (provider_error (Exn "AttributeError" "'int' object has no attribute 'strip'")).
Proof.
  apply (gemini_non_string_text_answered_500 Scenario.w Scenario.gemini_only
           (Scenario.post None [("message_text", JNum 5)]) Scenario.s0
           [("message_text", JNum 5)]);
    first [ reflexivity | repeat split; fail | discriminate ].
Defined.

Section GeminiUpload.

Variable w : world.
Variable cfg : config.

(** The temporary file of the upload is still there when
    [call_gemini_api] ends, however it ends. *)
Lemma kept_after_bind {A B} (m : M A) (k : A -> M B) s q data :
  (forall a, keeps files_kept (k a)) ->
  files (snd (m s)) !! q = Some data ->
  files (snd (bind m k s)) !! q = Some data.
Proof.
  intros Hk Hm. unfold bind. destruct (m s) as [[a|e] s1]; simpl in *.
  - apply (Hk a s1), Hm.
  - exact Hm.
Qed.

Lemma call_gemini_api_leaves_upload payload b bs mode s tmp :
  gemini_ready w cfg ->
  fst (NamedTemporaryFile w ".png" s) = Ok tmp ->
  files (snd (call_gemini_api w cfg payload (Some (b :: bs)) mode s)) !! tmp
  = Some (b :: bs).
Proof.
  intros (Hkey & Hinst & Hclient) Htmp.
  unfold call_gemini_api. rewrite bind_log, Hkey, Hinst. cbn [negb]. cbv zeta.
  unfold bind at 1. unfold lift at 1. rewrite Hclient.
  apply kept_after_bind; [intros; kept_auto|].
  unfold bind at 1.
  match goal with |- context [NamedTemporaryFile w ".png" ?s1] =>
    destruct (NamedTemporaryFile_log_blind w ".png" s s1 ltac:(split; reflexivity)) as [Hfst _];
    rewrite Htmp in Hfst;
    destruct (NamedTemporaryFile w ".png" s1) as [r s2]
  end.
  simpl in Hfst. subst r. cbv beta iota.
  unfold bind at 1. unfold tmp_write at 1. cbv beta iota.
  apply kept_after_bind; [intros; kept_auto|].
  unfold try_finally, client_files_upload, ret. cbn [files].
  destruct (files_upload w tmp _); cbn [snd files]; apply lookup_insert_eq.
Qed.

Lemma provider_block_gemini_state user_text image_bytes mode p s :
  opt_truthy (GEMINI_API_KEY cfg) = true ->
  snd (provider_block w cfg user_text image_bytes mode p s)
  = snd (cleanup w p (snd (call_gemini_api w cfg user_text image_bytes mode s))).
Proof.
  intros Hg. unfold provider_block, try_finally, try_except, bind, ret. rewrite Hg.
  destruct (call_gemini_api w cfg user_text image_bytes mode s) as [[d|e] s1]; simpl;
    destruct (cleanup w p s1) as [[u|e'] s2]; reflexivity.
Qed.

End GeminiUpload.

(** X10.  Whenever the handler takes an image to Gemini, the copy that
    [call_gemini_api] writes for the upload is on disk when the handler
    returns, whatever the upload and the generation did: nothing deletes
    it. *)
Theorem gemini_upload_copy_stays (w : world) (cfg : config) (req : request) (s s2 : state)
    (m : list (string * json)) (user_text : json) (p tmp : string)
    (b : byte) (bs : bytes) :
  gemini_ready w cfg ->
  gate_rejects cfg req = false ->
  json_body req = Some (JObj m) ->
  m <> [] ->
  build_user_text w (mode_of m) (text_of m) = Ok user_text ->
  load_image w (image_of m) (after_uuid s) = (Ok (inr (Some p, Some (b :: bs))), s2) ->
  fst (NamedTemporaryFile w ".png" s2) = Ok tmp ->
  files (snd (analyze w cfg req s)) !! tmp = Some (b :: bs)
  /\ files s !! tmp = None.
Proof.
  intros Hready Hgate Hbody Hm Hut Hload Htmp.
  pose proof (load_image_outcome w (image_of m) (after_uuid s)) as Hl.
  rewrite Hload in Hl. destruct Hl as (_ & _ & Hfiles & Hfresh & Hp).
  pose proof (NamedTemporaryFile_spec w ".png" s2) as HT.
  destruct (NamedTemporaryFile w ".png" s2) as [[tmp'|e] s3] eqn:E; simpl in Htmp;
    [|discriminate].
  injection Htmp as ->. destruct HT as (Hnew & _).
  assert (Hne : p <> tmp).
  { intros ->. rewrite Hfiles, lookup_insert_eq in Hnew. discriminate. }
  split.
  - rewrite (analyze_reaches_provider w cfg req s m user_text (Some p) (Some (b :: bs)) s2)
      by assumption.
    assert (Hstay : files (snd (provider_block w cfg user_text (Some (b :: bs)) (mode_of m)
                                  (Some p) s2)) !! tmp = Some (b :: bs)).
    { rewrite (provider_block_gemini_state w cfg) by apply Hready.
      rewrite cleanup_files, Hp, lookup_delete_ne by exact Hne.
      apply call_gemini_api_leaves_upload; [exact Hready|]. rewrite E. reflexivity. }
    destruct (provider_block w cfg user_text (Some (b :: bs)) (mode_of m) (Some p) s2)
      as [[[resp|[d used]]|e] s4]; exact Hstay.
  - rewrite Hfiles in Hnew. rewrite lookup_insert_ne in Hnew by exact Hne. exact Hnew.
Qed.

Lemma gemini_upload_copy_stays_witness :
  files (snd (analyze Scenario.w Scenario.gemini_only
                (Scenario.post None [("image_base64", JStr "QUJD")]) Scenario.s0))
    !! "/tmp/tmpr2.png" = Some [Byte.x41; Byte.x42; Byte.x43]
  /\ files Scenario.s0 !! "/tmp/tmpr2.png" = None.
Proof.
  apply (gemini_upload_copy_stays Scenario.w Scenario.gemini_only
           (Scenario.post None [("image_base64", JStr "QUJD")]) Scenario.s0
           (snd (load_image Scenario.w (JStr "QUJD") (after_uuid Scenario.s0)))
           [("image_base64", JStr "QUJD")] (JStr EmptyString) "/tmp/tmpr1.png"
           "/tmp/tmpr2.png" Byte.x41 [Byte.x42; Byte.x43]);
    first [ repeat split; fail | discriminate | vm_compute; reflexivity ].
Defined.

(** X19.  [call_gemini_api] never looks at its [mode] argument, and image bytes
    of length zero (a data URL with an empty payload) count as no image:
    the result and the disk are the same.  The mode acts only through the
    prefix the handler has put on the text. *)
Theorem gemini_ignores_mode_and_empty_image (w : world) (cfg : config)
    (payload_text mode mode' : json) (image_bytes : option bytes) (s : state) :
  (fst (call_gemini_api w cfg payload_text image_bytes mode s)
   = fst (call_gemini_api w cfg payload_text image_bytes mode' s)
   /\ files (snd (call_gemini_api w cfg payload_text image_bytes mode s))
      = files (snd (call_gemini_api w cfg payload_text image_bytes mode' s)))
  /\ (fst (call_gemini_api w cfg payload_text (Some []) mode s)
      = fst (call_gemini_api w cfg payload_text None mode s)
      /\ files (snd (call_gemini_api w cfg payload_text (Some []) mode s))
         = files (snd (call_gemini_api w cfg payload_text None mode s))).
Proof.
  split.
  - unfold call_gemini_api. rewrite !bind_log.
    match goal with |- fst (?k ?s1) = fst (?k ?s2) /\ _ =>
      assert (Hk : log_blind k) by blind_auto;
      destruct (Hk s1 s2 ltac:(split; reflexivity)) as [Hfst [Hfiles _]]
    end.
    split; assumption.
  - unfold call_gemini_api. rewrite !bind_log. cbv beta iota.
    match goal with |- fst (?k ?s1) = fst (?k ?s2) /\ _ =>
      assert (Hk : log_blind k) by blind_auto;
      destruct (Hk s1 s2 ltac:(split; reflexivity)) as [Hfst [Hfiles _]]
    end.
    split; assumption.
Qed.

(** ** Configuration from the environment *)

Section Environment.

Variable environ : gmap string string.

Lemma str_truthy_true s : str_truthy s = true <-> s <> EmptyString.
Proof.
  unfold str_truthy. rewrite negb_true_iff. apply String.eqb_neq.
Qed.

Lemma opt_truthy_getenv key :
  opt_truthy (getenv environ key) = true
  <-> exists value, environ !! key = Some value /\ value <> EmptyString.
Proof.
  unfold getenv, opt_truthy. destruct (environ !! key) as [value|].
  - rewrite str_truthy_true. split; [eauto | intros (v & [= <-] & H); exact H].
  - split; [discriminate | intros (v & H & _); discriminate].
Qed.

End Environment.

(** X20.  The gate as the deployment sees it: a request is turned away exactly
    when [BACKEND_SECRET] is set in the environment to something other than
    ["devsecret"] and the header is absent or different.  Left unset, the
    variable takes the default and every caller is let in. *)
Theorem gate_from_environment (environ : gmap string string) (req : request) :
  gate_rejects (load_config environ) req = true
  <-> exists secret,
        environ !! "BACKEND_SECRET" = Some secret
        /\ secret <> "devsecret"
        /\ x_backend_secret req <> Some secret.
Proof.
  rewrite gate_rejects_true. unfold load_config, getenv_or. cbn [BACKEND_SECRET].
  destruct (environ !! "BACKEND_SECRET") as [secret|].
  - split.
    + intros [H1 H2]. exists secret. auto.
    + intros (v & [= <-] & H1 & H2). auto.
  - split.
    + intros [H _]. congruence.
    + intros (v & H & _). discriminate.
Qed.

(** X21.  Which provider serves a deployment: every 200 answer names Gemini when
    [GEMINI_API_KEY] is set to a non-empty string; OpenAI when it is unset
    or empty and [OPENAI_API_KEY] is set to a non-empty string; and there
    is no 200 answer when neither is. *)
Theorem provider_from_environment (w : world) (environ : gmap string string)
    (req : request) (s : state) (r : response) :
  fst (analyze w (load_config environ) req s) = Ok r ->
  resp_status r = 200 ->
  (used_provider r = Some (JStr "gemini")
   /\ exists key, environ !! "GEMINI_API_KEY" = Some key /\ key <> EmptyString)
  \/ (used_provider r = Some (JStr "openai")
      /\ (environ !! "GEMINI_API_KEY" = None
          \/ environ !! "GEMINI_API_KEY" = Some EmptyString)
      /\ exists key, environ !! "OPENAI_API_KEY" = Some key /\ key <> EmptyString).
Proof.
  intros Hr Hst. pose proof (analyze_classified w (load_config environ) req s) as Hc.
  rewrite Hr in Hc. inversion Hc; subst; simpl in Hst; try discriminate.
  - left. split; [reflexivity|]. apply opt_truthy_getenv. assumption.
  - right. split; [reflexivity|]. split.
    + match goal with H : opt_truthy (GEMINI_API_KEY _) = false |- _ =>
        unfold load_config, getenv, opt_truthy in H; cbn [GEMINI_API_KEY] in H;
        destruct (environ !! "GEMINI_API_KEY") as [key|]; [|left; reflexivity];
        right; f_equal; unfold str_truthy in H; apply negb_false_iff in H;
        apply String.eqb_eq in H; exact H
      end.
    + apply opt_truthy_getenv. assumption.
Qed.

Lemma provider_from_environment_witness :
  (used_provider (ok_reply (JStr "hi") "openai") = Some (JStr "gemini")
   /\ exists key,
        Cases.environ [("GEMINI_API_KEY", EmptyString); ("OPENAI_API_KEY", "o-key")]
          !! "GEMINI_API_KEY" = Some key /\ key <> EmptyString)
  \/ (used_provider (ok_reply (JStr "hi") "openai") = Some (JStr "openai")
      /\ (Cases.environ [("GEMINI_API_KEY", EmptyString); ("OPENAI_API_KEY", "o-key")]
            !! "GEMINI_API_KEY" = None
          \/ Cases.environ [("GEMINI_API_KEY", EmptyString); ("OPENAI_API_KEY", "o-key")]
               !! "GEMINI_API_KEY" = Some EmptyString)
      /\ exists key,
           Cases.environ [("GEMINI_API_KEY", EmptyString); ("OPENAI_API_KEY", "o-key")]
             !! "OPENAI_API_KEY" = Some key /\ key <> EmptyString).
Proof.
  apply (provider_from_environment Scenario.w
           (Cases.environ [("GEMINI_API_KEY", EmptyString); ("OPENAI_API_KEY", "o-key")])
           (Scenario.post None [("message_text", JStr "hello")]) Scenario.s0).
  - vm_compute. reflexivity.
  - reflexivity.
Defined.

(** X22.  With [DEFAULT_MODEL] unset or set to the empty string the Gemini call
    asks for the model ["gemini-2.5-pro"], and with [SYSTEM_PROMPT] unset
    its system instruction is the built-in persona.  Stated for a call
    without image whose text passes the test of line 58: it is not empty
    and [str.strip] does not empty it. *)
Theorem gemini_defaults_from_environment (w : world) (environ : gmap string string)
    (t : string) (mode : json) (s : state) (c : gen_config) (r : gemini_response) :
  gemini_ready w (load_config environ) ->
  environ !! "DEFAULT_MODEL" = None \/ environ !! "DEFAULT_MODEL" = Some EmptyString ->
  environ !! "SYSTEM_PROMPT" = None ->
  t <> EmptyString ->
  str_strip (unicode w) t <> EmptyString ->
  make_config w default_system_prompt = Ok c ->
  generate_content w "gemini-2.5-pro" [CText t] (Some c) = Ok r ->
  fst (call_gemini_api w (load_config environ) (JStr t) None mode s)
  = Ok (provider_reply (gemini_text r) (PResponse r)).
Proof.
  intros Hready Hmodel Hprompt Ht Hstrip Hconfig Hgen.
  rewrite (call_gemini_api_text_only w (load_config environ)) by (auto || exact Hready).
  rewrite (append_text_some_text w t []) by assumption.
  unfold gemini_generate, gemini_model_name, load_config, getenv_or. cbv zeta.
  cbn [SYSTEM_PROMPT DEFAULT_MODEL]. rewrite Hprompt, Hconfig.
  destruct Hmodel as [-> | ->];
    match goal with |- context [generate_content w ?model ?contents ?config] =>
      change (generate_content w model contents config)
        with (generate_content w "gemini-2.5-pro" [CText t] (Some c))
    end;
    rewrite Hgen; reflexivity.
Qed.

Lemma gemini_defaults_from_environment_witness :
  fst (call_gemini_api Scenario.w
         (load_config (Cases.environ [("GEMINI_API_KEY", "g-key")]))
         (JStr "hello") None (JStr "auto") Scenario.s0)
  = Ok (provider_reply (JStr "answer")
          (PResponse (GeminiResponse (Ok (JStr "answer")) (Ok "response")))).
Proof.
  apply (gemini_defaults_from_environment Scenario.w
           (Cases.environ [("GEMINI_API_KEY", "g-key")]) "hello" (JStr "auto") Scenario.s0
           (GenerateContentConfig default_system_prompt)
           (GeminiResponse (Ok (JStr "answer")) (Ok "response")));
    first [ reflexivity | left; reflexivity | vm_compute; discriminate
          | repeat split; vm_compute; reflexivity ].
Defined.

(** X13.  The request that [call_openai_chat] sends: one POST to the
    chat-completions URL with a 60 second time-out, the bearer key and the
    JSON content type, and a body with model ["gpt-4o"], the persona as
    system message, the text unchanged as user message, temperature 0.2 and
    at most 800 tokens.  If that request is answered 2xx with a completion,
    the reply text is its content. *)
Theorem openai_request_sent (w : world) (cfg : config) (key system_prompt : string)
    (user_text : json) (s : state) (resp : http_response) (j content : json) :
  OPENAI_API_KEY cfg = Some key ->
  key <> EmptyString ->
  requests_post w "https://api.openai.com/v1/chat/completions"
    [("Authorization", "Bearer " ++ key); ("Content-Type", "application/json")]
    (JObj [("model", JStr "gpt-4o");
           ("messages",
            JArr [JObj [("role", JStr "system"); ("content", JStr system_prompt)];
                  JObj [("role", JStr "user"); ("content", user_text)]]);
           ("temperature", JFloat "0.2");
           ("max_tokens", JNum 800)])
    60
  = Ok resp ->
  200 <= status_code resp < 300 ->
  resp_json resp = Ok j ->
  has_content j content ->
  fst (call_openai_chat w cfg system_prompt user_text s)
  = Ok (provider_reply content (PJson j)).
Proof.
  intros Hkey Hne Hpost Hst Hj Hshape.
  unfold call_openai_chat, call_openai_chat_with. rewrite bind_log, Hkey.
  assert (Ht : opt_truthy (Some key) = true) by (apply str_truthy_true, Hne).
  rewrite Ht. cbn [negb]. cbv zeta. unfold bind, lift, try_except, ret.
  match type of Hpost with
  | ?sent = _ =>
      match goal with |- context [requests_post w ?url ?headers ?body ?timeout] =>
        change (requests_post w url headers body timeout) with sent
      end
  end.
  rewrite Hpost.
  rewrite (raise_for_status_pass _ resp) by lia. rewrite Hj.
  apply (extract_content_shape w) in Hshape. rewrite Hshape. reflexivity.
Qed.

Lemma openai_request_sent_witness :
  fst (call_openai_chat Scenario.w Scenario.openai_only "persona" (JStr "hello")
         Scenario.s0)
  = Ok (provider_reply (JStr "hi") (PJson (Scenario.completion "hi"))).
Proof.
  apply (openai_request_sent Scenario.w Scenario.openai_only "o-key" "persona"
           (JStr "hello") Scenario.s0 (HttpResponse 200 "OK" (Ok (Scenario.completion "hi")))
           (Scenario.completion "hi") (JStr "hi"));
    first [ reflexivity | discriminate | simpl; lia | idtac ].
  exists [("choices", JArr [JObj [("message", JObj [("content", JStr "hi")])]])],
    [("message", JObj [("content", JStr "hi")])], [], [("content", JStr "hi")].
  repeat split.
Defined.

(** X23.  There is no failover: with a Gemini credential configured and the SDK
    not installed, the request is answered the 500 envelope with the
    [RuntimeError] of the failed import, and OpenAI is not called even if
    its credential is configured too. *)
Theorem gemini_sdk_missing_no_fallback (w : world) (cfg : config)
    (user_text : json) (image_bytes : option bytes) (mode : json) (p : option string)
    (s : state) :
  opt_truthy (GEMINI_API_KEY cfg) = true ->
  genai_installed w = false ->
  fst (provider_block w cfg user_text image_bytes mode p s)
  = Ok (inl (provider_error
               (RuntimeError "google-genai SDK not installed. pip install google-genai")))
  /\ calls (snd (provider_block w cfg user_text image_bytes mode p s))
     = (calls s ++ [CallGemini user_text image_bytes mode])%list.
Proof.
  intros Hg Hinst. split.
  - rewrite (provider_block_gemini w cfg) by exact Hg.
    unfold call_gemini_api. rewrite bind_log, Hg, Hinst. reflexivity.
  - destruct (provider_block_spec w cfg user_text image_bytes mode p s) as (_ & _ & _ & Hc).
    rewrite Hc. unfold expected_calls. rewrite Hg. reflexivity.
Qed.

Lemma gemini_sdk_missing_no_fallback_witness :
  fst (provider_block
         (World "/tmp" (rand_name Scenario.w) (rand_uuid Scenario.w) false
            (genai_Client Scenario.w) (files_upload Scenario.w) (make_config Scenario.w)
            (generate_content Scenario.w) (requests_post Scenario.w) (unicode Scenario.w))
         (Scenario.configured (Some "o-key") (Some "g-key") "devsecret")
         (JStr "hello") None (JStr "auto") None Scenario.s0)
  = Ok (inl (provider_error
               (RuntimeError "google-genai SDK not installed. pip install google-genai")))
  /\ calls (snd (provider_block
                   (World "/tmp" (rand_name Scenario.w) (rand_uuid Scenario.w) false
                      (genai_Client Scenario.w) (files_upload Scenario.w)
                      (make_config Scenario.w) (generate_content Scenario.w)
                      (requests_post Scenario.w) (unicode Scenario.w))
                   (Scenario.configured (Some "o-key") (Some "g-key") "devsecret")
                   (JStr "hello") None (JStr "auto") None Scenario.s0))
     = (calls Scenario.s0 ++ [CallGemini (JStr "hello") None (JStr "auto")])%list.
Proof.
  apply (gemini_sdk_missing_no_fallback
           (World "/tmp" (rand_name Scenario.w) (rand_uuid Scenario.w) false
              (genai_Client Scenario.w) (files_upload Scenario.w) (make_config Scenario.w)
              (generate_content Scenario.w) (requests_post Scenario.w) (unicode Scenario.w))
           (Scenario.configured (Some "o-key") (Some "g-key") "devsecret")
           (JStr "hello") None (JStr "auto") None Scenario.s0);
    reflexivity.
Defined.

(** ** Witnesses of the properties proved with the claims *)

Lemma normalizer_file_removed_witness :
  files (snd (analyze Scenario.w Scenario.gemini_only
                (Scenario.post None [("image_base64", JStr "QUJD")]) Scenario.s0))
    !! "/tmp/tmpr1.png" = None.
Proof.
  apply (normalizer_file_removed Scenario.w Scenario.gemini_only
           (Scenario.post None [("image_base64", JStr "QUJD")]) Scenario.s0
           [("image_base64", JStr "QUJD")] (JStr EmptyString) "/tmp/tmpr1.png"
           (Some [Byte.x41; Byte.x42; Byte.x43])
           (snd (load_image Scenario.w (JStr "QUJD") (after_uuid Scenario.s0))));
    first [ reflexivity | discriminate | vm_compute; reflexivity ].
Defined.


Lemma single_marker_decoded_witness :
  image_binary (JStr "data:image/png;base64,QUJD") = Base64.b64decode_str "QUJD".
Proof.
  apply (single_marker_decoded "data:image/png;base64,QUJD" "QUJD"); reflexivity.
Defined.

Lemma marker_segment_decoded_witness :
  exists segment others,
    Py.str_split "QUJDbase64,QQ==" "base64," = segment :: others
    /\ image_binary (JStr "data:image/png;base64,QUJDbase64,QQ==")
       = Base64.b64decode_str segment.
Proof.
  apply (marker_segment_decoded "data:image/png;base64,QUJDbase64,QQ==" "QUJDbase64,QQ==").
  reflexivity.
Defined.
